(** * Numato Opsis base target: clock planning and SoC composition

    A shallow embedding of [targets/opsis_base.py]:
    - the PLL parameters computed by [_CRG.__init__] from the requested
      system clock frequency,
    - the power-on-reset counter and the reset request of the system
      clock domain,
    - the combinatorial aliases between the SDRAM read and write domains,
    - the class-level resource tables ([csr_map], [interrupt_map],
      [mem_map]) of [BaseSoC] and [MiniSoC], built with [dict.update],
    - the sequence of submodules and memory registrations performed by
      the two constructors. *)

From Stdlib Require Import ZArith QArith Qfield Lia Bool List SpecFloat.
From stdpp Require Import gmap strings list fin_maps.

Local Open Scope Z_scope.

(** ** Python results *)

Inductive exn : Type :=
| AssertionError
| ZeroDivisionError
| OverflowError.

Inductive result (A : Type) : Type :=
| Ok (a : A)
| Raise (e : exn).

Arguments Ok {A} a.
Arguments Raise {A} e.

(** ** [fractions.Fraction] on two integers

    [Fraction(a, b)] raises on [b = 0]; otherwise it divides both by
    their gcd, the gcd taking the sign of [b], so that the denominator
    is positive.  [//] is floor division, as [Z.div]. *)

Record Fraction : Type := mkFraction { numerator : Z; denominator : Z }.

Definition Fraction_new (a b : Z) : result Fraction :=
  if b =? 0 then Raise ZeroDivisionError
  else
    let g := Z.gcd a b in
    let g := if b <? 0 then - g else g in
    Ok {| numerator := a / g; denominator := b / g |}.

(** ** The PLL of [_CRG] *)

(** [f0 = 100*1000000]: the frequency of the board oscillator. *)
Definition f0 : Z := 100 * 1000000.

(** [p = 8] *)
Definition p : Z := 8.

(** The integer parameters handed to the [PLL_ADV] instance; phases are
    in degrees. *)
Record PLL_ADV : Type := mkPLL {
  DIVCLK_DIVIDE : Z;
  CLKFBOUT_MULT : Z;
  CLKOUT0_PHASE : Z; CLKOUT0_DIVIDE : Z;
  CLKOUT1_PHASE : Z; CLKOUT1_DIVIDE : Z;
  CLKOUT2_PHASE : Z; CLKOUT2_DIVIDE : Z;
  CLKOUT3_PHASE : Z; CLKOUT3_DIVIDE : Z;
  CLKOUT4_PHASE : Z; CLKOUT4_DIVIDE : Z;
  CLKOUT5_PHASE : Z; CLKOUT5_DIVIDE : Z
}.

(** *** Python floats

    A Python [float] is an IEEE 754 binary64 number: [spec_float] with a
    precision of 53 bits and [emax = 1024], rounded to nearest, ties to
    even, which is what the operations of [SpecFloat] do. *)

(** The integer [z] as the unrounded pair mantissa, exponent 0. *)
Definition int_as_float (z : Z) : spec_float :=
  match z with
  | Z0 => S754_zero false
  | Zpos q => S754_finite false q 0
  | Zneg q => S754_finite true q 0
  end.

(** Conversion of an [int] operand to [float]: the nearest double, and
    [OverflowError] when that is out of range. *)
Definition float_of_int (z : Z) : result spec_float :=
  match binary_normalize 53 1024 z 0 false with
  | S754_infinity _ => Raise OverflowError
  | x => Ok x
  end.

(** [a / b] on two [int]: the double nearest to the quotient;
    [ZeroDivisionError] on [b = 0], [OverflowError] when the quotient is
    out of range.  The quotient core of [SFdiv] takes any two positive
    mantissas. *)
Definition int_true_divide (a b : Z) : result spec_float :=
  if b =? 0 then Raise ZeroDivisionError
  else
    match SFdiv 53 1024 (int_as_float a) (int_as_float b) with
    | S754_infinity _ => Raise OverflowError
    | x => Ok x
    end.

(** [x * y] on two [float]; an overflow gives an infinity. *)
Definition float_mul (x y : spec_float) : spec_float := SFmul 53 1024 x y.

(** [x == z] for a [float] and an [int]: Python compares the two values
    exactly; an infinity or a NaN equals no integer. *)
Definition float_eq_int (x : spec_float) (z : Z) : bool :=
  match x with
  | S754_zero _ => z =? 0
  | S754_finite s m e =>
      if 0 <=? e then cond_Zopp s (Zpos m * 2 ^ e) =? z
      else cond_Zopp s (Zpos m) =? z * 2 ^ (- e)
  | _ => false
  end.

(** The double that holds the integer [z], for [0 < z < 2^53]: a
    mantissa of 53 bits. *)
Definition double_of (z : Z) : spec_float :=
  S754_finite false (Z.to_pos (z * 2 ^ (52 - Z.log2 z))) (Z.log2 z - 52).

(** [f0/n*m == clk_freq] as Python 3 evaluates it: the true division
    [f0/n] gives a float, [m] is converted to a float for the product,
    and the product is compared with the integer [clk_freq]. *)
Definition exactness_assertion (ref n m clk_freq : Z) : result bool :=
  match int_true_divide ref n with
  | Raise e => Raise e
  | Ok q =>
      match float_of_int m with
      | Raise e => Raise e
      | Ok fm => Ok (float_eq_int (float_mul q fm) clk_freq)
      end
  end.

(** The equation of the assertion, [f0/n*m = clk_freq], in exact
    rational arithmetic. *)
Definition exactness_equation (ref n m clk_freq : Z) : bool :=
  Qeq_bool (inject_Z ref / inject_Z n * inject_Z m) (inject_Z clk_freq).

(** Lines 88-115 of [_CRG.__init__], for a reference frequency [ref]. *)
Definition pll_from (ref clk_freq : Z) : result PLL_ADV :=
  match Fraction_new clk_freq ref with
  | Raise e => Raise e
  | Ok f =>
      let n := denominator f in
      let m := numerator f in
      match exactness_assertion ref n m clk_freq with
      | Raise e => Raise e
      | Ok false => Raise AssertionError
      | Ok true =>
        Ok {| DIVCLK_DIVIDE := 1;
              CLKFBOUT_MULT := m * p / n;
              CLKOUT0_PHASE := 0;   CLKOUT0_DIVIDE := p / 4;
              CLKOUT1_PHASE := 0;   CLKOUT1_DIVIDE := p / 4;
              CLKOUT2_PHASE := 270; CLKOUT2_DIVIDE := p / 2;
              CLKOUT3_PHASE := 250; CLKOUT3_DIVIDE := p / 2;
              CLKOUT4_PHASE := 0;   CLKOUT4_DIVIDE := p / 1;
              CLKOUT5_PHASE := 0;   CLKOUT5_DIVIDE := p / 1 |}
      end
  end.

Definition _CRG_pll (clk_freq : Z) : result PLL_ADV := pll_from f0 clk_freq.

(** The system clock is tap 5 of the PLL behind a [BUFG]: the input
    clock times [CLKFBOUT_MULT], over [DIVCLK_DIVIDE * CLKOUT5_DIVIDE].
    [sys_clk_exact] says that this quotient is [target] with remainder
    zero. *)
Definition sys_clk_num (ref : Z) (pll : PLL_ADV) : Z := ref * CLKFBOUT_MULT pll.
Definition sys_clk_den (pll : PLL_ADV) : Z := DIVCLK_DIVIDE pll * CLKOUT5_DIVIDE pll.

Definition sys_clk_hz (ref : Z) (pll : PLL_ADV) : Z :=
  sys_clk_num ref pll / sys_clk_den pll.

Definition sys_clk_exact (ref : Z) (pll : PLL_ADV) (target : Z) : Prop :=
  sys_clk_num ref pll mod sys_clk_den pll = 0 /\ sys_clk_hz ref pll = target.

(** [clk_freq = 75*1000000] in [BaseSoC.__init__]. *)
Definition BaseSoC_clk_freq : Z := 75 * 1000000.

(** ** Reset logic of [_CRG] *)

(** [por = Signal(max=1 << 11, reset=(1 << 11) - 1)]: a register of 11
    bits, holding 0 .. [por_max - 1]. *)
Definition por_max : Z := Z.shiftl 1 11.
Definition por_reset : Z := Z.shiftl 1 11 - 1.

(** [self.sync.por += If(por != 0, por.eq(por - 1))]; the assignment
    truncates to the width of [por]. *)
Definition por_next (por : Z) : Z :=
  if negb (por =? 0) then (por - 1) mod por_max else por.

(** A clock edge of the [por] domain: the reset of the domain loads the
    reset value. *)
Definition por_tick (rst : bool) (por : Z) : Z :=
  if rst then por_reset else por_next por.

(** [reset = ~platform.request("cpu_reset")] *)
Definition por_reset_request (cpu_reset : bool) : bool := negb cpu_reset.

(** [~pll_lckd | (por > 0)], the input of the synchronizer of [cd_sys]. *)
Definition sys_reset_request (pll_lckd : bool) (por : Z) : bool :=
  negb pll_lckd || (por >? 0).

(** [self.cd_sys.rst | ~dcm_base50_locked] *)
Definition base50_reset_request (sys_rst dcm_base50_locked : bool) : bool :=
  sys_rst || negb dcm_base50_locked.

(** [AsyncResetSynchronizer], a primitive of migen's library: two
    flip-flops in the clock domain, both preset asynchronously by the
    request; the second one drives the reset of the domain.  The reset is asserted as soon as
    the request is, and released two clock edges after the request is. *)
Record resetsync : Type := mkResetSync { rst_meta : bool; rst_ff : bool }.

Definition resetsync_init : resetsync := {| rst_meta := true; rst_ff := true |}.

Definition resetsync_rst (request : bool) (s : resetsync) : bool :=
  request || rst_ff s.

Definition resetsync_tick (request : bool) (s : resetsync) : resetsync :=
  if request then {| rst_meta := true; rst_ff := true |}
  else {| rst_meta := false; rst_ff := rst_meta s |}.

(** The pins and lock signals seen during one cycle of the system clock. *)
Record crg_inputs : Type := mkInputs {
  cpu_reset : bool;
  pll_lckd : bool;
  dcm_base50_locked : bool
}.

Record crg_state : Type := mkCrgState {
  por : Z;
  sync_por : resetsync;
  sync_sys : resetsync;
  sync_base50 : resetsync
}.

Definition crg_init : crg_state :=
  {| por := por_reset;
     sync_por := resetsync_init;
     sync_sys := resetsync_init;
     sync_base50 := resetsync_init |}.

Definition cd_por_rst (st : crg_state) (i : crg_inputs) : bool :=
  resetsync_rst (por_reset_request (cpu_reset i)) (sync_por st).

Definition cd_sys_rst (st : crg_state) (i : crg_inputs) : bool :=
  resetsync_rst (sys_reset_request (pll_lckd i) (por st)) (sync_sys st).

Definition cd_base50_rst (st : crg_state) (i : crg_inputs) : bool :=
  resetsync_rst
    (base50_reset_request (cd_sys_rst st i) (dcm_base50_locked i))
    (sync_base50 st).

Definition crg_tick (st : crg_state) (i : crg_inputs) : crg_state :=
  {| por := por_tick (cd_por_rst st i) (por st);
     sync_por := resetsync_tick (por_reset_request (cpu_reset i)) (sync_por st);
     sync_sys :=
       resetsync_tick (sys_reset_request (pll_lckd i) (por st)) (sync_sys st);
     sync_base50 :=
       resetsync_tick
         (base50_reset_request (cd_sys_rst st i) (dcm_base50_locked i))
         (sync_base50 st) |}.

Definition crg_run (tr : list crg_inputs) (st : crg_state) : crg_state :=
  fold_left crg_tick tr st.

(** The counter fits its register. *)
Definition por_in_range (st : crg_state) : Prop := 0 <= por st < por_max.

(** ** Netlist of [_CRG] *)

Inductive signal : Type :=
| cd_sys_clk | cd_sys_rst_sig
| cd_sdram_half_clk
| cd_sdram_full_wr_clk
| cd_sdram_full_rd_clk
| cd_base50_clk | cd_base50_rst_sig
| cd_por_clk | cd_por_rst_sig
| clk4x_wr_strb
| clk4x_rd_strb
| clk100 | clk100a | clk100b
| cpu_reset_pin
| pll_lckd_sig | pll_fb
| pll (tap : nat)
| clk_sdram_half_shifted
| output_clk
| ddram_clock_p | ddram_clock_n
| dcm_base50_locked_sig
| ddrphy_clk4x_wr_strb
| ddrphy_clk4x_rd_strb.

#[global] Instance signal_eq_dec : EqDecision signal.
Proof. solve_decision. Defined.

(** A statement of the design: a primitive with the signals on its
    inputs and outputs, or a combinatorial assignment [dst.eq(src)]. *)
Inductive stmt : Type :=
| Inst (prim : string) (ins outs : list signal)
| Comb (dst src : signal).

(** The specials and [comb] statements of [_CRG.__init__], in order. *)
Definition crg_netlist : list stmt :=
  [ Inst "IBUFG" [clk100] [clk100a];
    Inst "BUFIO2" [clk100a] [clk100b];
    Inst "PLL_ADV" [clk100b; pll_fb]
      [pll_fb; pll_lckd_sig; pll 0; pll 1; pll 2; pll 3; pll 4; pll 5];
    Inst "BUFG" [pll 5] [cd_sys_clk];
    Comb cd_por_clk cd_sys_clk;
    Inst "AsyncResetSynchronizer" [cd_por_clk; cpu_reset_pin] [cd_por_rst_sig];
    Inst "AsyncResetSynchronizer" [cd_sys_clk; pll_lckd_sig] [cd_sys_rst_sig];
    Inst "BUFG" [pll 2] [cd_sdram_half_clk];
    Inst "BUFPLL" [pll 0; cd_sys_clk; pll_lckd_sig]
      [cd_sdram_full_wr_clk; clk4x_wr_strb];
    Comb cd_sdram_full_rd_clk cd_sdram_full_wr_clk;
    Comb clk4x_rd_strb clk4x_wr_strb;
    Inst "BUFG" [pll 3] [clk_sdram_half_shifted];
    Inst "ODDR2" [clk_sdram_half_shifted] [output_clk];
    Inst "OBUFDS" [output_clk] [ddram_clock_p; ddram_clock_n];
    Inst "DCM_CLKGEN" [clk100a; cd_sys_rst_sig]
      [cd_base50_clk; dcm_base50_locked_sig];
    Inst "AsyncResetSynchronizer"
      [cd_base50_clk; cd_sys_rst_sig; dcm_base50_locked_sig]
      [cd_base50_rst_sig] ].

(** The [comb] statements of [BaseSoC.__init__] that connect the DDR
    PHY to the strobes of the CRG. *)
Definition ddrphy_netlist : list stmt :=
  [ Comb ddrphy_clk4x_wr_strb clk4x_wr_strb;
    Comb ddrphy_clk4x_rd_strb clk4x_rd_strb ].

(** The sources of the combinatorial assignments to [s]. *)
Definition comb_drivers (nl : list stmt) (s : signal) : list signal :=
  omap (fun st =>
          match st with
          | Comb dst src => if decide (dst = s) then Some src else None
          | Inst _ _ _ => None
          end) nl.

(** The primitives that have [s] among their outputs. *)
Definition inst_drivers (nl : list stmt) (s : signal) : list string :=
  omap (fun st =>
          match st with
          | Inst prim _ outs => if decide (s ∈ outs) then Some prim else None
          | Comb _ _ => None
          end) nl.

(** The signal that [s] is a copy of: follow the combinatorial
    assignments back to a signal that has none. *)
Fixpoint origin (fuel : nat) (nl : list stmt) (s : signal) : signal :=
  match fuel with
  | O => s
  | S fuel' =>
      match comb_drivers nl s with
      | src :: _ => origin fuel' nl src
      | [] => s
      end
  end.

(** The level of [s] when the outputs of the primitives have the levels
    [env]. *)
Definition level (nl : list stmt) (env : signal -> bool) (s : signal) : bool :=
  env (origin (length nl) nl s).

(** ** Resource tables of the SoC classes *)

(** The class attributes of a SoC class that the targets read. *)
Record soc_class : Type := mkSocClass {
  csr_map : gmap string Z;
  interrupt_map : gmap string Z;
  mem_map : gmap string Z;
  shadow_base : Z
}.

(** [d.update(other)]: the entries of [other] replace those of [d]. *)
Definition dict_update (d other : gmap string Z) : gmap string Z := other ∪ d.

(** The dictionary displays of the two class bodies. *)
Definition BaseSoC_csr_map_0 : gmap string Z := {[ "ddrphy" := 16 ]}.
Definition BaseSoC_mem_map_0 : gmap string Z := {[ "firmware_ram" := 0x20000000 ]}.
Definition MiniSoC_csr_map_0 : gmap string Z :=
  <[ "ethphy" := 17 ]> {[ "ethmac" := 18 ]}.
Definition MiniSoC_interrupt_map_0 : gmap string Z := {[ "ethmac" := 2 ]}.
Definition MiniSoC_mem_map_0 : gmap string Z := {[ "ethmac" := 0x30000000 ]}.

(** [class BaseSoC(SDRAMSoC)]: each display is updated with the table of
    the parent class; [interrupt_map] and [shadow_base] are inherited. *)
Definition BaseSoC (SDRAMSoC : soc_class) : soc_class :=
  {| csr_map := dict_update BaseSoC_csr_map_0 (csr_map SDRAMSoC);
     interrupt_map := interrupt_map SDRAMSoC;
     mem_map := dict_update BaseSoC_mem_map_0 (mem_map SDRAMSoC);
     shadow_base := shadow_base SDRAMSoC |}.

(** [class MiniSoC(BaseSoC)] *)
Definition MiniSoC (SDRAMSoC : soc_class) : soc_class :=
  let Base := BaseSoC SDRAMSoC in
  {| csr_map := dict_update MiniSoC_csr_map_0 (csr_map Base);
     interrupt_map := dict_update MiniSoC_interrupt_map_0 (interrupt_map Base);
     mem_map := dict_update MiniSoC_mem_map_0 (mem_map Base);
     shadow_base := shadow_base Base |}.

(** Values of a table are used by one name only. *)
Definition map_injective (m : gmap string Z) : Prop :=
  forall k1 k2 v, m !! k1 = Some v -> m !! k2 = Some v -> k1 = k2.

Definition map_injectiveb (m : gmap string Z) : bool :=
  bool_decide (NoDup (map_to_list m).*2).

(** No value of [m] is in [vs]. *)
Definition values_avoid (vs : list Z) (m : gmap string Z) : bool :=
  forallb (fun v => bool_decide (v ∉ vs)) (map_to_list m).*2.

(** No value of [l] is a value of [m]. *)
Definition values_fresh (l m : gmap string Z) : Prop :=
  forall k1 k2 v, l !! k1 = Some v -> m !! k2 = Some v -> False.

(** ** The constructors *)

(** What the constructors read besides the platform:
    [firmware_ram_size_arg] is the keyword argument [firmware_ram_size]
    of [BaseSoC.__init__], when it is passed;
    [integrated_main_ram_size] is the attribute left on the object by
    [SDRAMSoC.__init__]. *)
Record kwargs : Type := mkKwargs {
  firmware_ram_size_arg : option Z;
  integrated_main_ram_size : Z
}.

(** [firmware_ram_size=0x8000] *)
Definition firmware_ram_size (kw : kwargs) : Z :=
  default 0x8000 (firmware_ram_size_arg kw).

(** What a constructor does to the SoC under construction.  Timing
    constraints ([Keep], platform commands) and the debug pin are not
    resources and are left out. *)
Inductive action : Type :=
| Submodule (name : string)
| RegisterMem (name : string) (address size : Z)
| RegisterSdramPhy (phy : string)
| AddWbSlave (address : Z) (bus : string)
| AddMemoryRegion (name : string) (origin_ length_ : Z)
| CombStmt (s : stmt).

#[global] Instance stmt_eq_dec : EqDecision stmt.
Proof. solve_decision. Defined.

#[global] Instance action_eq_dec : EqDecision action.
Proof. solve_decision. Defined.

(** Python truth value of an integer. *)
Definition truthy (z : Z) : bool := negb (z =? 0).

(** [BaseSoC.__init__] after the call to [SDRAMSoC.__init__]; [cls] is
    the class of [self].  A missing key of [self.mem_map] is a
    [KeyError], here [None]. *)
Definition BaseSoC_init (cls : soc_class) (kw : kwargs) : option (list action) :=
  fw ← mem_map cls !! "firmware_ram";
  Some ([ Submodule "crg";
          Submodule "firmware_ram";
          RegisterMem "firmware_ram" fw (firmware_ram_size kw) ]
        ++ (if negb (truthy (integrated_main_ram_size kw))
            then Submodule "ddrphy"
                   :: (CombStmt <$> ddrphy_netlist)
                   ++ [ RegisterSdramPhy "ddrphy" ]
            else [])).

(** [MiniSoC.__init__] *)
Definition MiniSoC_init (cls : soc_class) (kw : kwargs) : option (list action) :=
  base ← BaseSoC_init cls kw;
  eth ← mem_map cls !! "ethmac";
  Some (base
        ++ [ Submodule "ethphy";
             Submodule "ethmac";
             AddWbSlave eth "ethmac";
             AddMemoryRegion "ethmac" (eth + shadow_base cls) 0x2000 ]).

Inductive variant : Type := VBaseSoC | VMiniSoC.

Definition class_of (v : variant) (SDRAMSoC : soc_class) : soc_class :=
  match v with
  | VBaseSoC => BaseSoC SDRAMSoC
  | VMiniSoC => MiniSoC SDRAMSoC
  end.

(** Building an object of the variant's class. *)
Definition construct (v : variant) (SDRAMSoC : soc_class) (kw : kwargs)
  : option (list action) :=
  match v with
  | VBaseSoC => BaseSoC_init (BaseSoC SDRAMSoC) kw
  | VMiniSoC => MiniSoC_init (MiniSoC SDRAMSoC) kw
  end.

(** The netlist of a constructed SoC: the CRG and the [comb] statements
    of the constructor. *)
Definition soc_netlist (acts : list action) : list stmt :=
  crg_netlist ++ omap (fun a => match a with CombStmt s => Some s | _ => None end) acts.

(** The memory regions of a constructed SoC by base address:
    [register_mem] is given the base address, [add_memory_region] the
    base address plus [shadow_base]. *)
Definition regions (cls : soc_class) (acts : list action) : list (string * Z * Z) :=
  omap (fun a =>
          match a with
          | RegisterMem n addr sz => Some (n, addr, sz)
          | AddMemoryRegion n o l => Some (n, o - shadow_base cls, l)
          | _ => None
          end) acts.

(** [[a1, a1+s1)] and [[a2, a2+s2)] have an address in common. *)
Definition ranges_overlap (a1 s1 a2 s2 : Z) : bool :=
  (a1 <? a2 + s2) && (a2 <? a1 + s1).

Fixpoint regions_disjoint (rs : list (string * Z * Z)) : bool :=
  match rs with
  | [] => true
  | (_, a, s) :: rest =>
      forallb (fun '(_, a', s') => negb (ranges_overlap a s a' s')) rest
      && regions_disjoint rest
  end.

(** Two parent classes to evaluate the tables on: one without entries,
    one with a register bank, interrupt and memory layout of its own. *)
Definition bare_SDRAMSoC : soc_class :=
  {| csr_map := ∅; interrupt_map := ∅; mem_map := ∅;
     shadow_base := 0x80000000 |}.

Definition sample_SDRAMSoC : soc_class :=
  {| csr_map :=
       list_to_map
         [ ("crg", 0); ("uart_phy", 1); ("uart", 2); ("identifier", 3);
           ("timer0", 4); ("buttons", 5); ("leds", 6); ("sdram", 8);
           ("wishbone2lasmi", 9); ("memtest_w", 10); ("memtest_r", 11) ];
     interrupt_map := list_to_map [ ("uart", 0); ("timer0", 1) ];
     mem_map :=
       list_to_map
         [ ("rom", 0x00000000); ("sram", 0x10000000);
           ("main_ram", 0x40000000); ("csr", 0x60000000) ];
     shadow_base := 0x80000000 |}.

(** A parent class whose tables use names of the displays above, one
    whose register banks use the index 16, and a firmware RAM that
    reaches the base address of the Ethernet MAC. *)
Definition colliding_SDRAMSoC : soc_class :=
  {| csr_map := list_to_map [ ("ddrphy", 5); ("ethmac", 7) ];
     interrupt_map := {[ "ethmac" := 0 ]};
     mem_map := {[ "firmware_ram" := 0x50000000 ]};
     shadow_base := 0x80000000 |}.

Definition spiflash_SDRAMSoC : soc_class :=
  {| csr_map := {[ "spiflash" := 16 ]};
     interrupt_map := ∅;
     mem_map := ∅;
     shadow_base := 0x80000000 |}.

Definition default_kwargs : kwargs :=
  {| firmware_ram_size_arg := None; integrated_main_ram_size := 0 |}.

Definition integrated_ram_kwargs : kwargs :=
  {| firmware_ram_size_arg := None; integrated_main_ram_size := 0x4000 |}.

Definition large_firmware_kwargs : kwargs :=
  {| firmware_ram_size_arg := Some 0x10000001; integrated_main_ram_size := 0 |}.

(** ** Further notions used below *)

(** Frequencies at the PLL: the VCO runs at the input clock times
    [CLKFBOUT_MULT] over [DIVCLK_DIVIDE]; an output runs at the VCO
    frequency over its divider. *)
Definition vco_hz (ref : Z) (pll : PLL_ADV) : Z :=
  ref * CLKFBOUT_MULT pll / DIVCLK_DIVIDE pll.

Definition clkout_hz (ref : Z) (pll : PLL_ADV) (divide : Z) : Z :=
  vco_hz ref pll / divide.

(** An input with the reset button released ([cpu_reset] high) and the
    PLL locked. *)
Definition released_and_locked (i : crg_inputs) : Prop :=
  cpu_reset i = true /\ pll_lckd i = true.

(** The names of the submodules a constructor installs, in order. *)
Definition submodules (acts : list action) : list string :=
  omap (fun a => match a with Submodule n => Some n | _ => None end) acts.

(** The number of drivers of a signal. *)
Definition driver_count (nl : list stmt) (s : signal) : nat :=
  length (comb_drivers nl s) + length (inst_drivers nl s).

(** ** Proof steps *)

(** Membership in a list that is written out. *)
Ltac in_list :=
  cbn [app fmap list_fmap];
  repeat first [ apply list_elem_of_here | apply list_elem_of_further ].

Ltac not_in_list :=
  let Hin := fresh "Hin" in
  intros Hin;
  repeat (apply elem_of_cons in Hin as [Hin|Hin]; [discriminate Hin|]);
  inversion Hin.

(** ** Properties of the float operations on integers below 2^53 *)

Section Binary64.

Lemma digits2_pos_log2 (m : positive) :
  Zpos (digits2_pos m) = Z.log2 (Zpos m) + 1.
Proof.
  induction m as [m IH|m IH|]; cbn [digits2_pos].
  - rewrite Pos2Z.inj_succ, IH.
    change (Zpos m~1) with (2 * Zpos m + 1).
    rewrite Z.log2_succ_double by lia. lia.
  - rewrite Pos2Z.inj_succ, IH.
    change (Zpos m~0) with (2 * Zpos m).
    rewrite Z.log2_double by lia. lia.
  - reflexivity.
Qed.

Lemma fexp_small (d : Z) : 0 <= d -> fexp 53 1024 d = d - 53.
Proof. intros H. unfold fexp, emin. lia. Qed.

Lemma shr_1_double (x : Z) :
  0 <= x ->
  shr_1 (Build_shr_record (x * 2) false false) = Build_shr_record x false false.
Proof.
  intros Hx. destruct x as [|q|q]; [reflexivity| |lia].
  replace (Zpos q * 2) with (Zpos q~0) by lia. reflexivity.
Qed.

Lemma iter_shr_1_exact (k : positive) :
  forall x, 0 <= x ->
  SpecFloat.iter_pos shr_1 k (Build_shr_record (x * 2 ^ Zpos k) false false)
  = Build_shr_record x false false.
Proof.
  induction k as [k IH|k IH|]; intros x Hx; cbn [SpecFloat.iter_pos].
  - replace (x * 2 ^ Zpos k~1) with (x * 2 ^ Zpos k * 2 ^ Zpos k * 2).
    + rewrite shr_1_double by (apply Z.mul_nonneg_nonneg; lia).
      rewrite IH by (apply Z.mul_nonneg_nonneg; lia). apply IH, Hx.
    + replace (Zpos k~1) with (Zpos k + Zpos k + 1) by lia.
      rewrite !Z.pow_add_r by lia. lia.
  - replace (x * 2 ^ Zpos k~0) with (x * 2 ^ Zpos k * 2 ^ Zpos k).
    + rewrite IH by (apply Z.mul_nonneg_nonneg; lia). apply IH, Hx.
    + replace (Zpos k~0) with (Zpos k + Zpos k) by lia.
      rewrite !Z.pow_add_r by lia. lia.
  - change (2 ^ 1) with 2. apply shr_1_double, Hx.
Qed.

Lemma log2_bound (z : Z) : 0 < z < 2 ^ 53 -> 0 <= Z.log2 z <= 52.
Proof.
  intros [H0 H1]. split; [apply Z.log2_nonneg|].
  apply Z.log2_lt_pow2 in H1; lia.
Qed.

(** Rounding a value that fits: the mantissa [M] at exponent [E] holds
    the integer [z] below 2^53 with at least the bits of a double. *)
Lemma binary_round_aux_exact (s : bool) (z M E : Z) :
  0 < z < 2 ^ 53 ->
  E <= Z.log2 z - 52 ->
  M = z * 2 ^ (- E) ->
  binary_round_aux 53 1024 s M E loc_Exact
  = S754_finite s (Z.to_pos (z * 2 ^ (52 - Z.log2 z))) (Z.log2 z - 52).
Proof.
  intros Hz HE HM.
  pose proof (log2_bound z Hz) as Hl.
  set (l := Z.log2 z) in *.
  set (k := l - 52 - E).
  assert (Hk : 0 <= k) by (subst k; lia).
  set (M' := z * 2 ^ (52 - l)).
  assert (HM'pos : 0 < M') by (subst M'; apply Z.mul_pos_pos; [lia|apply Z.pow_pos_nonneg; lia]).
  assert (HMM' : M = M' * 2 ^ k).
  { subst M M' k. rewrite <- Z.mul_assoc, <- Z.pow_add_r by lia.
    f_equal. f_equal. lia. }
  assert (HMpos : 0 < M).
  { rewrite HMM'. apply Z.mul_pos_pos; [lia|apply Z.pow_pos_nonneg; lia]. }
  assert (HlogM' : Z.log2 M' = 52).
  { subst M'. rewrite Z.log2_mul_pow2 by lia. fold l. lia. }
  assert (HlogM : Z.log2 M = 52 + k).
  { rewrite HMM'. rewrite Z.log2_mul_pow2 by lia. lia. }
  assert (HdM : Zdigits2 M = 53 + k).
  { destruct M as [|q|q]; try lia. cbn [Zdigits2].
    rewrite digits2_pos_log2, HlogM. lia. }
  assert (HdM' : Zdigits2 M' = 53).
  { destruct M' as [|q|q]; try lia. cbn [Zdigits2].
    rewrite digits2_pos_log2, HlogM'. lia. }
  unfold binary_round_aux.
  assert (Hshr1 : shr_fexp 53 1024 M E loc_Exact
                  = (Build_shr_record M' false false, E + k)).
  { unfold shr_fexp. rewrite HdM, fexp_small by lia.
    replace (53 + k + E - 53 - E) with k by lia.
    cbn [shr_record_of_loc]. unfold shr.
    destruct k as [|kp|kp] eqn:Ek; [| |lia].
    - rewrite HMM'. rewrite Z.pow_0_r, Z.mul_1_r, Z.add_0_r. reflexivity.
    - rewrite HMM'. rewrite iter_shr_1_exact by lia. reflexivity. }
  rewrite Hshr1. cbn [shr_m loc_of_shr_record round_nearest_even].
  assert (Hshr2 : shr_fexp 53 1024 M' (E + k) loc_Exact
                  = (Build_shr_record M' false false, E + k)).
  { unfold shr_fexp. rewrite HdM', fexp_small by lia.
    replace (53 + (E + k) - 53 - (E + k)) with 0 by lia.
    reflexivity. }
  rewrite Hshr2. cbn [shr_m].
  destruct M' as [|q|q] eqn:EM'; try lia.
  replace (E + k) with (l - 52) by (subst k; lia).
  destruct (Z.leb_spec (l - 52) (1024 - 53)) as [_|Hbad]; [|lia].
  reflexivity.
Qed.

Lemma pos_iter_xO (m d : positive) :
  Zpos (Pos.iter xO m d) = Zpos m * 2 ^ Zpos d.
Proof.
  induction d as [|d IH] using Pos.peano_ind.
  - cbn [Pos.iter]. lia.
  - rewrite Pos.iter_succ. rewrite Pos2Z.inj_xO, IH.
    rewrite Pos2Z.inj_succ, Z.pow_succ_r by lia. lia.
Qed.

(** Conversion of an integer below 2^53 is exact. *)
Lemma float_of_int_exact (z : Z) :
  0 < z < 2 ^ 53 -> float_of_int z = Ok (double_of z).
Proof.
  intros Hz. pose proof (log2_bound z Hz) as Hl.
  unfold float_of_int, double_of.
  destruct z as [|q|q]; try lia.
  cbn [binary_normalize]. unfold binary_round.
  rewrite digits2_pos_log2, Z.add_0_r, fexp_small by lia.
  unfold shl_align.
  set (l := Z.log2 (Zpos q)) in *.
  destruct (l + 1 - 53 - 0) as [|c|c] eqn:Ec.
  - rewrite (binary_round_aux_exact false (Zpos q) (Zpos q) 0); fold l;
      [reflexivity|lia|lia|].
    rewrite Z.pow_0_r. lia.
  - lia.
  - rewrite (binary_round_aux_exact false (Zpos q) _ (l + 1 - 53)); fold l;
      [reflexivity|lia|lia|].
    rewrite pos_iter_xO. f_equal. f_equal. lia.
Qed.

Lemma div_eucl_exact (a b : Z) : Z.div_eucl a b = (a / b, a mod b).
Proof. unfold Z.div, Z.modulo. destruct (Z.div_eucl a b). reflexivity. Qed.

(** True division of [a] by a divisor [b] of it is exact. *)
Lemma int_true_divide_exact (a b : Z) :
  0 < b -> 0 < a < 2 ^ 53 -> (b | a) ->
  int_true_divide a b = Ok (double_of (a / b)).
Proof.
  intros Hb Ha [g Hg]. subst a.
  assert (Hgpos : 0 < g) by nia.
  rewrite Z.div_mul by lia.
  assert (Hg53 : 0 < g < 2 ^ 53) by nia.
  pose proof (log2_bound g Hg53) as Hlg.
  pose proof (log2_bound (g * b) Ha) as Hla.
  assert (Hlb : 0 <= Z.log2 b) by apply Z.log2_nonneg.
  pose proof (Z.log2_mul_above g b ltac:(lia) ltac:(lia)) as Habove.
  pose proof (Z.log2_mul_below g b ltac:(lia) ltac:(lia)) as Hbelow.
  unfold int_true_divide.
  destruct (Z.eqb_spec b 0) as [E0|_]; [lia|].
  destruct (g * b) as [|pa|pa] eqn:Ea; try lia.
  destruct b as [|pb|pb] eqn:Eb; try lia.
  cbn [int_as_float SFdiv xorb]. unfold SFdiv_core_binary.
  cbn [Zdigits2]. rewrite !digits2_pos_log2.
  set (la := Z.log2 (Zpos pa)) in *. set (lb := Z.log2 (Zpos pb)) in *.
  replace (la + 1 + 0 - (lb + 1 + 0)) with (la - lb) by lia.
  unfold fexp, emin.
  replace (Z.min (Z.max (la - lb - 53) (3 - 1024 - 53)) (0 - 0))
    with (la - lb - 53) by lia.
  replace (0 - 0 - (la - lb - 53)) with (53 + lb - la) by lia.
  destruct (53 + lb - la) as [|sp|sp] eqn:Es; try lia.
  rewrite Z.shiftl_mul_pow2 by lia.
  rewrite div_eucl_exact.
  assert (Hq : Zpos pa * 2 ^ Zpos sp / Zpos pb = g * 2 ^ Zpos sp).
  { rewrite <- Ea. replace (g * Zpos pb * 2 ^ Zpos sp)
      with (g * 2 ^ Zpos sp * Zpos pb) by lia. apply Z.div_mul. lia. }
  assert (Hr : (Zpos pa * 2 ^ Zpos sp) mod Zpos pb = 0).
  { rewrite <- Ea. replace (g * Zpos pb * 2 ^ Zpos sp)
      with (g * 2 ^ Zpos sp * Zpos pb) by lia. apply Z.mod_mul. lia. }
  rewrite Hq, Hr.
  assert (Hloc : new_location (Zpos pb) 0 = loc_Exact).
  { unfold new_location, new_location_even, new_location_odd.
    destruct (Z.even (Zpos pb)); reflexivity. }
  rewrite Hloc.
  rewrite (binary_round_aux_exact false g (g * 2 ^ Zpos sp) (la - lb - 53));
    [reflexivity|lia|lia|].
  f_equal. f_equal. lia.
Qed.

(** The product of two doubles holding integers is exact when it is
    below 2^53. *)
Lemma float_mul_exact (a b : Z) :
  0 < a -> 0 < b -> a * b < 2 ^ 53 ->
  float_mul (double_of a) (double_of b) = double_of (a * b).
Proof.
  intros Ha Hb Hab.
  assert (Ha53 : 0 < a < 2 ^ 53) by nia.
  assert (Hb53 : 0 < b < 2 ^ 53) by nia.
  assert (Hab53 : 0 < a * b < 2 ^ 53) by nia.
  pose proof (log2_bound a Ha53) as Hla.
  pose proof (log2_bound b Hb53) as Hlb.
  pose proof (log2_bound (a * b) Hab53) as Hlab.
  pose proof (Z.log2_mul_below a b Ha Hb) as Hbelow.
  unfold float_mul, double_of. cbn [SFmul xorb].
  set (la := Z.log2 a) in *. set (lb := Z.log2 b) in *.
  assert (Hpa : 0 < a * 2 ^ (52 - la)) by (apply Z.mul_pos_pos; [lia|apply Z.pow_pos_nonneg; lia]).
  assert (Hpb : 0 < b * 2 ^ (52 - lb)) by (apply Z.mul_pos_pos; [lia|apply Z.pow_pos_nonneg; lia]).
  rewrite Pos2Z.inj_mul, !Z2Pos.id by lia.
  apply binary_round_aux_exact; [lia|lia|].
  replace (- (la - 52 + (lb - 52))) with ((52 - la) + (52 - lb)) by lia.
  rewrite Z.pow_add_r by lia. lia.
Qed.

(** Comparing a double that holds an integer with an integer. *)
Lemma float_eq_int_exact (z z' : Z) :
  0 < z < 2 ^ 53 -> float_eq_int (double_of z) z' = (z =? z').
Proof.
  intros Hz. pose proof (log2_bound z Hz) as Hl.
  unfold float_eq_int, double_of. set (l := Z.log2 z) in *.
  assert (Hp : 0 < z * 2 ^ (52 - l)) by (apply Z.mul_pos_pos; [lia|apply Z.pow_pos_nonneg; lia]).
  rewrite Z2Pos.id by lia. cbn [cond_Zopp].
  destruct (Z.leb_spec 0 (l - 52)) as [H0|H0].
  - replace (l - 52) with 0 by lia. replace (52 - l) with 0 by lia.
    rewrite !Z.pow_0_r, !Z.mul_1_r. reflexivity.
  - replace (- (l - 52)) with (52 - l) by lia.
    assert (H2 : 0 < 2 ^ (52 - l)) by (apply Z.pow_pos_nonneg; lia).
    destruct (Z.eqb_spec z z') as [->|Hne].
    + apply Z.eqb_refl.
    + apply Z.eqb_neq. nia.
Qed.

End Binary64.

(** ** Properties of the planner *)

Section Planner.

Variable ref : Z.
Hypothesis ref_pos : 0 < ref.

Lemma Fraction_new_pos_den (a : Z) :
  Fraction_new a ref =
    Ok {| numerator := a / Z.gcd a ref; denominator := ref / Z.gcd a ref |}.
Proof.
  unfold Fraction_new.
  destruct (Z.eqb_spec ref 0) as [E|_]; [lia|].
  destruct (Z.ltb_spec ref 0) as [E|_]; [lia|reflexivity].
Qed.

Lemma gcd_ref_pos (a : Z) : 0 < Z.gcd a ref.
Proof.
  pose proof (Z.gcd_nonneg a ref) as Hn.
  destruct (Z.eq_dec (Z.gcd a ref) 0) as [E|E]; [|lia].
  apply Z.gcd_eq_0_r in E. lia.
Qed.

Lemma den_mul_gcd (a : Z) : ref / Z.gcd a ref * Z.gcd a ref = ref.
Proof.
  destruct (Z.gcd_divide_r a ref) as [k Hk].
  pose proof (gcd_ref_pos a) as Hg.
  rewrite Hk at 1. rewrite Z.div_mul by lia. lia.
Qed.

Lemma num_mul_gcd (a : Z) : a / Z.gcd a ref * Z.gcd a ref = a.
Proof.
  destruct (Z.gcd_divide_l a ref) as [k Hk].
  pose proof (gcd_ref_pos a) as Hg.
  rewrite Hk at 1. rewrite Z.div_mul by lia. lia.
Qed.

Lemma den_pos (a : Z) : 0 < ref / Z.gcd a ref.
Proof.
  pose proof (den_mul_gcd a). pose proof (gcd_ref_pos a). nia.
Qed.

(** The reduced denominator divides the reference: the division
    [ref / n] of the assertion leaves no remainder. *)
Lemma den_divides_ref (a : Z) : (ref / Z.gcd a ref | ref).
Proof. exists (Z.gcd a ref). rewrite Z.mul_comm. symmetry. apply den_mul_gcd. Qed.

Lemma exactness_equation_reduced (a : Z) :
  exactness_equation ref (ref / Z.gcd a ref) (a / Z.gcd a ref) a = true.
Proof.
  unfold exactness_equation. apply Qeq_bool_iff.
  pose proof (den_pos a) as Hn.
  set (g := Z.gcd a ref). set (n := ref / g). set (m := a / g).
  assert (Hr : ref = n * g) by (symmetry; apply den_mul_gcd).
  assert (Ha : a = m * g) by (symmetry; apply num_mul_gcd).
  rewrite Ha at 1. rewrite Hr at 1.
  rewrite !inject_Z_mult.
  assert (Hq : ~ (inject_Z n == 0)%Q).
  { unfold Qeq; simpl. fold n in Hn. lia. }
  field. exact Hq.
Qed.

(** Below 2^53 every step of the assertion is exact in floats, and the
    assertion passes. *)
Lemma exactness_assertion_passes (a : Z) :
  ref < 2 ^ 53 -> 0 <= a < 2 ^ 53 ->
  exactness_assertion ref (ref / Z.gcd a ref) (a / Z.gcd a ref) a = Ok true.
Proof.
  intros Hr53 Ha53.
  pose proof (gcd_ref_pos a) as Hg.
  pose proof (den_mul_gcd a) as Hr. pose proof (num_mul_gcd a) as Ha.
  pose proof (den_pos a) as Hn.
  set (g := Z.gcd a ref) in *. set (n := ref / g) in *. set (m := a / g) in *.
  assert (Hq : ref / n = g).
  { rewrite <- Hr at 1. rewrite Z.mul_comm. apply Z.div_mul. lia. }
  unfold exactness_assertion.
  rewrite (int_true_divide_exact ref n Hn ltac:(lia) (den_divides_ref a)).
  rewrite Hq.
  assert (Hg53 : 0 < g < 2 ^ 53) by nia.
  destruct (Z.eq_dec a 0) as [E0|E0].
  - assert (Hm0 : m = 0) by nia.
    rewrite Hm0, E0. reflexivity.
  - assert (Hm : 0 < m) by nia.
    assert (Hm53 : 0 < m < 2 ^ 53) by nia.
    rewrite (float_of_int_exact m Hm53).
    rewrite (float_mul_exact g m) by nia.
    replace (g * m) with a by lia.
    rewrite float_eq_int_exact by lia.
    rewrite Z.eqb_refl. reflexivity.
Qed.

Lemma pll_from_ok (a : Z) :
  ref < 2 ^ 53 -> 0 <= a < 2 ^ 53 ->
  pll_from ref a =
    Ok {| DIVCLK_DIVIDE := 1;
          CLKFBOUT_MULT := a / Z.gcd a ref * p / (ref / Z.gcd a ref);
          CLKOUT0_PHASE := 0;   CLKOUT0_DIVIDE := p / 4;
          CLKOUT1_PHASE := 0;   CLKOUT1_DIVIDE := p / 4;
          CLKOUT2_PHASE := 270; CLKOUT2_DIVIDE := p / 2;
          CLKOUT3_PHASE := 250; CLKOUT3_DIVIDE := p / 2;
          CLKOUT4_PHASE := 0;   CLKOUT4_DIVIDE := p / 1;
          CLKOUT5_PHASE := 0;   CLKOUT5_DIVIDE := p / 1 |}.
Proof.
  intros Hr53 Ha53.
  unfold pll_from. rewrite Fraction_new_pos_den. cbn [numerator denominator].
  rewrite exactness_assertion_passes by assumption. reflexivity.
Qed.

(** When the reduced denominator divides [p], the multiplier
    [m*p//n] is exact and the system clock is the requested one. *)
Lemma pll_from_exact_when_den_divides_p (a : Z) :
  ref < 2 ^ 53 -> 0 <= a < 2 ^ 53 ->
  (ref / Z.gcd a ref | p) ->
  exists pll, pll_from ref a = Ok pll /\ sys_clk_exact ref pll a.
Proof.
  intros Hr53 Ha53 [k Hk]. eexists. split; [apply pll_from_ok; assumption|].
  pose proof (den_pos a) as Hn.
  pose proof (den_mul_gcd a) as Hr. pose proof (num_mul_gcd a) as Ha.
  unfold sys_clk_exact, sys_clk_hz, sys_clk_num, sys_clk_den.
  cbn [CLKFBOUT_MULT DIVCLK_DIVIDE CLKOUT5_DIVIDE].
  set (g := Z.gcd a ref) in *. set (n := ref / g) in *. set (m := a / g) in *.
  assert (Hm : m * p / n = m * k).
  { rewrite Hk. rewrite Z.mul_assoc. apply Z.div_mul. lia. }
  rewrite Hm.
  assert (Hp : p / 1 = p) by apply Z.div_1_r.
  rewrite Hp, Z.mul_1_l.
  assert (E : ref * (m * k) = a * p) by (rewrite Hk; nia).
  rewrite E. unfold p at 2 4.
  split; [apply Z.mod_mul; lia | apply Z.div_mul; lia].
Qed.

End Planner.

Lemma f0_pos : 0 < f0.
Proof. unfold f0. lia. Qed.

Lemma f0_53 : f0 < 2 ^ 53.
Proof. unfold f0. lia. Qed.

(** C9. For every positive integer [clk_freq], with the reference
    [f0 = 100_000_000], the reduced denominator divides [f0] and the
    equation of the assertion, [f0/n*m = clk_freq], holds in exact
    arithmetic: no target fails it.  For a target below 2^53 the
    assertion as Python evaluates it, in floats, passes too, and the
    constructor returns its PLL parameters. *)
Theorem exactness_assertion_never_rejects (clk_freq : Z) :
  0 < clk_freq ->
  exists f,
    Fraction_new clk_freq f0 = Ok f /\
    (denominator f | f0) /\
    exactness_equation f0 (denominator f) (numerator f) clk_freq = true /\
    (clk_freq < 2 ^ 53 ->
     exactness_assertion f0 (denominator f) (numerator f) clk_freq = Ok true /\
     exists pll, _CRG_pll clk_freq = Ok pll).
Proof.
  intros Hpos. eexists. split; [apply (Fraction_new_pos_den f0 f0_pos)|].
  cbn [numerator denominator]. split; [apply (den_divides_ref f0 f0_pos)|].
  split; [apply (exactness_equation_reduced f0 f0_pos)|].
  intros H53. split.
  - apply (exactness_assertion_passes f0 f0_pos); [apply f0_53|lia].
  - eexists. apply (pll_from_ok f0 f0_pos); [apply f0_53|lia].
Qed.

Lemma exactness_assertion_never_rejects_witness :
  0 < 30000000 /\
  30000000 < 2 ^ 53 /\
  exists f,
    Fraction_new 30000000 f0 = Ok f /\
    exactness_equation f0 (denominator f) (numerator f) 30000000 = true /\
    exactness_assertion f0 (denominator f) (numerator f) 30000000 = Ok true /\
    exists pll, _CRG_pll 30000000 = Ok pll.
Proof.
  assert (H0 : 0 < 30000000) by lia.
  assert (H53 : 30000000 < 2 ^ 53) by lia.
  split; [exact H0|]. split; [exact H53|].
  destruct (exactness_assertion_never_rejects 30000000 H0)
    as (f & Hf & _ & Heq & Hfl).
  destruct (Hfl H53) as [Hass Hpll].
  exists f. repeat split; assumption.
Defined.

(** Above 2^53 the float product is rounded, and the assertion of the
    code can fail where the equation holds: at 2^53 + 1 the constructor
    raises [AssertionError]; at 10^400 the conversion of the numerator
    raises [OverflowError]. *)
Example crg_pll_above_2_53 :
  exactness_equation f0 f0 (2 ^ 53 + 1) (2 ^ 53 + 1) = true /\
  float_of_int (2 ^ 53 + 1) = Ok (S754_finite false (Z.to_pos (2 ^ 52)) 1) /\
  _CRG_pll (2 ^ 53 + 1) = Raise AssertionError /\
  _CRG_pll (10 ^ 400) = Raise OverflowError.
Proof. vm_compute. repeat split. Qed.

(** The operations on some operands, as CPython gives them: [1/3] is
    [0x15555555555555 * 2^-54]; [2^53 + 3] is a tie and goes to the
    even [2^53 + 4]; the largest integer that converts is just below
    [2^1024 - 2^970]. *)
Example float_operations :
  int_true_divide 1 3 = Ok (S754_finite false 0x15555555555555 (-54)) /\
  float_of_int (2 ^ 53 + 3) = Ok (S754_finite false (Z.to_pos (2 ^ 52 + 2)) 1) /\
  float_of_int (2 ^ 1024 - 2 ^ 970) = Raise OverflowError /\
  float_of_int (2 ^ 1024 - 2 ^ 970 - 1)
  = Ok (S754_finite false (Z.to_pos (2 ^ 53 - 1)) 971) /\
  int_true_divide 1 0 = Raise ZeroDivisionError /\
  float_eq_int (S754_infinity false) 0 = false.
Proof. vm_compute. repeat split. Qed.

(** C8. For the Opsis configuration (reference 100 MHz, target 75 MHz,
    post-divide 8) the constructor succeeds, and the factors it hands to
    the PLL reproduce the target with remainder zero:
    [100_000_000 * CLKFBOUT_MULT / (DIVCLK_DIVIDE * CLKOUT5_DIVIDE)]
    is 75_000_000, with [CLKOUT5_DIVIDE = 8]. *)
Theorem opsis_sys_clk_exact :
  exists pll,
    _CRG_pll BaseSoC_clk_freq = Ok pll /\
    CLKOUT5_DIVIDE pll = 8 /\
    (f0 * CLKFBOUT_MULT pll) mod (DIVCLK_DIVIDE pll * CLKOUT5_DIVIDE pll) = 0 /\
    f0 * CLKFBOUT_MULT pll / (DIVCLK_DIVIDE pll * CLKOUT5_DIVIDE pll) = 75000000.
Proof.
  eexists. split; [vm_compute; reflexivity|].
  cbn [CLKOUT5_DIVIDE CLKFBOUT_MULT DIVCLK_DIVIDE]. repeat split.
Qed.

(** C1, at the target 30 MHz.  The reduced fraction is 3/10; the
    assertion passes; the multiplier is [3*8//10 = 2], and the system
    clock that the PLL then produces is 25 MHz.  The constructor returns
    this plan and raises nothing. *)
Theorem crg_pll_rounds_30MHz :
  exists pll,
    _CRG_pll 30000000 = Ok pll /\
    Fraction_new 30000000 f0 = Ok {| numerator := 3; denominator := 10 |} /\
    DIVCLK_DIVIDE pll = 1 /\
    CLKFBOUT_MULT pll = 2 /\
    CLKOUT5_DIVIDE pll = 8 /\
    (f0 * CLKFBOUT_MULT pll) mod (DIVCLK_DIVIDE pll * CLKOUT5_DIVIDE pll) = 0 /\
    sys_clk_hz f0 pll = 25000000 /\
    sys_clk_hz f0 pll <> 30000000.
Proof.
  eexists. split; [vm_compute; reflexivity|].
  repeat split. vm_compute. discriminate.
Qed.

(** The targets the multiplier reproduces are those whose reduced
    denominator divides [p = 8]. *)
Lemma crg_pll_exact_when_den_divides_p (clk_freq : Z) :
  0 <= clk_freq < 2 ^ 53 ->
  (f0 / Z.gcd clk_freq f0 | p) ->
  exists pll, _CRG_pll clk_freq = Ok pll /\ sys_clk_exact f0 pll clk_freq.
Proof.
  intros H. apply (pll_from_exact_when_den_divides_p f0 f0_pos);
    [apply f0_53|exact H].
Qed.

Example crg_pll_10MHz_mult_zero :
  exists pll, _CRG_pll 10000000 = Ok pll /\ CLKFBOUT_MULT pll = 0.
Proof. eexists. split; [vm_compute; reflexivity | reflexivity]. Qed.

(** ** Properties of the reset logic *)

Section Reset.

Lemma por_max_eq : por_max = 2048.
Proof. reflexivity. Qed.

Lemma por_reset_eq : por_reset = 2047.
Proof. reflexivity. Qed.

Lemma por_next_pos (x : Z) : 0 < x < por_max -> por_next x = x - 1.
Proof.
  intros Hx. unfold por_next.
  destruct (Z.eqb_spec x 0) as [E|_]; [lia|]. cbn [negb].
  apply Z.mod_small. lia.
Qed.

Lemma por_next_zero : por_next 0 = 0.
Proof. reflexivity. Qed.

Lemma por_next_range (x : Z) :
  0 <= x < por_max -> 0 <= por_next x < por_max.
Proof.
  intros Hx. destruct (Z.eq_dec x 0) as [->|Hne].
  - rewrite por_next_zero. rewrite por_max_eq. lia.
  - rewrite por_next_pos by lia. lia.
Qed.

(** The counter never goes up, and stops at zero. *)
Lemma por_next_le (x : Z) : 0 <= x < por_max -> por_next x <= x.
Proof.
  intros Hx. destruct (Z.eq_dec x 0) as [->|Hne].
  - rewrite por_next_zero. lia.
  - rewrite por_next_pos by lia. lia.
Qed.

Lemma por_countdown (k : nat) :
  Nat.iter k por_next por_reset = Z.max 0 (por_reset - Z.of_nat k).
Proof.
  induction k as [|k IH].
  - reflexivity.
  - rewrite Nat.iter_succ, IH, por_reset_eq.
    destruct (Z.le_gt_cases 2047 (Z.of_nat k)) as [Hk|Hk].
    + replace (Z.max 0 (2047 - Z.of_nat k)) with 0 by lia.
      rewrite por_next_zero. lia.
    + rewrite por_next_pos by (rewrite por_max_eq; lia). lia.
Qed.

Lemma crg_init_in_range : por_in_range crg_init.
Proof.
  unfold por_in_range, crg_init. cbn [por].
  rewrite por_reset_eq, por_max_eq. lia.
Qed.

Lemma crg_tick_in_range (st : crg_state) (i : crg_inputs) :
  por_in_range st -> por_in_range (crg_tick st i).
Proof.
  unfold por_in_range. intros Hst. cbn [crg_tick por]. unfold por_tick.
  destruct (cd_por_rst st i).
  - rewrite por_reset_eq, por_max_eq. lia.
  - apply por_next_range, Hst.
Qed.

Lemma crg_run_in_range (tr : list crg_inputs) :
  forall st, por_in_range st -> por_in_range (crg_run tr st).
Proof.
  induction tr as [|i tr IH]; intros st Hst; [exact Hst|].
  cbn [crg_run fold_left]. apply IH, crg_tick_in_range, Hst.
Qed.

(** While the [por] domain is not reset, a tick does not raise the
    counter. *)
Lemma crg_tick_por_le (st : crg_state) (i : crg_inputs) :
  por_in_range st -> cd_por_rst st i = false ->
  por (crg_tick st i) <= por st.
Proof.
  intros Hst Hr. cbn [crg_tick por]. rewrite Hr. cbn [por_tick].
  apply por_next_le, Hst.
Qed.

(** The synchronizer passes an asserted request at once. *)
Lemma resetsync_rst_request (s : resetsync) : resetsync_rst true s = true.
Proof. reflexivity. Qed.

(** Two ticks without a request release the reset. *)
Lemma resetsync_release (s : resetsync) :
  resetsync_rst false (resetsync_tick false (resetsync_tick false s)) = false.
Proof. reflexivity. Qed.

Lemma cd_sys_rst_request (st : crg_state) (i : crg_inputs) :
  sys_reset_request (pll_lckd i) (por st) = true -> cd_sys_rst st i = true.
Proof. intros H. unfold cd_sys_rst. rewrite H. reflexivity. Qed.

Lemma sys_reset_request_false (l : bool) (x : Z) :
  0 <= x -> sys_reset_request l x = false <-> x = 0 /\ l = true.
Proof.
  intros Hx. unfold sys_reset_request.
  destruct l; cbn [negb orb]; destruct (Z.gtb_spec x 0); split;
    try discriminate; try lia; intros [? ?]; try discriminate; try lia;
    reflexivity.
Qed.

End Reset.

(** C4. From power-on the counter holds [(1<<11)-1]; left to run it is
    [max 0 ((1<<11)-1-k)] after [k] ticks, so it counts down once and
    stays at zero.  After any sequence of inputs, the reset of the
    system domain is asserted whenever the counter is not zero or the
    PLL lock is low; where it is released, the counter is zero and the
    lock is high. *)
Theorem sys_reset_held_until_por_zero_and_lock
    (tr : list crg_inputs) (i : crg_inputs) :
  let st := crg_run tr crg_init in
  por crg_init = Z.shiftl 1 11 - 1 /\
  (forall k : nat,
      Nat.iter k por_next (por crg_init)
      = Z.max 0 (Z.shiftl 1 11 - 1 - Z.of_nat k)) /\
  (por st <> 0 \/ pll_lckd i = false -> cd_sys_rst st i = true) /\
  (cd_sys_rst st i = false -> por st = 0 /\ pll_lckd i = true).
Proof.
  intros st.
  assert (Hr : por_in_range st) by apply crg_run_in_range, crg_init_in_range.
  split; [reflexivity|]. split; [apply por_countdown|].
  assert (Hheld : por st <> 0 \/ pll_lckd i = false -> cd_sys_rst st i = true).
  { intros H. apply cd_sys_rst_request.
    destruct (sys_reset_request (pll_lckd i) (por st)) eqn:E; [reflexivity|].
    apply sys_reset_request_false in E; [|apply Hr].
    destruct E as [E1 E2]. destruct H as [H|H]; [lia|congruence]. }
  split; [exact Hheld|].
  intros Hrel.
  destruct (Z.eq_dec (por st) 0) as [E0|E0];
    [|rewrite Hheld in Hrel by (left; exact E0); discriminate].
  destruct (pll_lckd i) eqn:El; [auto|].
  rewrite Hheld in Hrel by (right; reflexivity). discriminate.
Qed.

Lemma sys_reset_held_until_por_zero_and_lock_witness :
  let tr := repeat (mkInputs true true true) 5 in
  let i := mkInputs true true true in
  (por (crg_run tr crg_init) <> 0 \/ pll_lckd i = false) /\
  cd_sys_rst (crg_run tr crg_init) i = true.
Proof.
  intros tr i.
  assert (H : por (crg_run tr crg_init) <> 0 \/ pll_lckd i = false).
  { left. vm_compute. discriminate. }
  split; [exact H|].
  exact (proj1 (proj2 (proj2 (sys_reset_held_until_por_zero_and_lock tr i))) H).
Defined.

(** With the reset button released and both locks high from power-on,
    the counter reaches zero and the system reset is then released: two
    ticks for the synchronizer of the [por] domain, 2047 for the
    counter, two for the synchronizer of the system domain. *)
Example sys_reset_released_after_countdown :
  let i := mkInputs true true true in
  por (crg_run (repeat i 2049) crg_init) = 0 /\
  cd_sys_rst (crg_run (repeat i 2050) crg_init) i = true /\
  cd_sys_rst (crg_run (repeat i 2051) crg_init) i = false.
Proof. vm_compute. repeat split. Qed.

(** Pressing the reset button reloads the counter. *)
Example cpu_reset_reloads_por :
  let run := mkInputs true true true in
  let pressed := mkInputs false true true in
  por (crg_run (repeat run 2051 ++ [pressed]) crg_init) = 2047.
Proof. vm_compute. reflexivity. Qed.

(** ** Properties of the resource tables *)

Section Tables.

Implicit Types d other m : gmap string Z.

Lemma lookup_dict_update d other (k : string) :
  dict_update d other !! k =
    match other !! k with
    | Some v => Some v
    | None => d !! k
    end.
Proof.
  unfold dict_update. rewrite lookup_union.
  destruct (other !! k), (d !! k); reflexivity.
Qed.

Lemma dict_update_other d other (k : string) (v : Z) :
  other !! k = Some v -> dict_update d other !! k = Some v.
Proof. intros H. rewrite lookup_dict_update, H. reflexivity. Qed.

Lemma dict_update_new d other (k : string) :
  other !! k = None -> dict_update d other !! k = d !! k.
Proof. intros H. rewrite lookup_dict_update, H. reflexivity. Qed.

Lemma dict_update_is_Some d other (k : string) :
  is_Some (d !! k) -> is_Some (dict_update d other !! k).
Proof.
  intros H. rewrite lookup_dict_update. destruct (other !! k); eauto.
Qed.

Lemma dict_update_injective d other :
  map_injective other -> map_injective d -> values_fresh d other ->
  map_injective (dict_update d other).
Proof.
  intros Ho Hd Hf k1 k2 v. rewrite !lookup_dict_update.
  destruct (other !! k1) as [v1|] eqn:E1, (other !! k2) as [v2|] eqn:E2;
    intros H1 H2.
  - apply (Ho k1 k2 v); congruence.
  - exfalso. apply (Hf k2 k1 v); congruence.
  - exfalso. apply (Hf k1 k2 v); congruence.
  - apply (Hd k1 k2 v); assumption.
Qed.

Lemma NoDup_snd_injective (l : list (string * Z)) :
  NoDup l.*2 ->
  forall k1 k2 v, (k1, v) ∈ l -> (k2, v) ∈ l -> k1 = k2.
Proof.
  induction l as [|[k v] l IH]; intros Hnd k1 k2 w H1 H2.
  - inversion H1.
  - rewrite fmap_cons in Hnd. cbn [snd] in Hnd.
    apply NoDup_cons in Hnd as [Hnotin Hnd].
    apply elem_of_cons in H1 as [H1|H1], H2 as [H2|H2].
    + congruence.
    + exfalso. apply Hnotin. injection H1 as _ <-.
      apply list_elem_of_fmap. exists (k2, w). auto.
    + exfalso. apply Hnotin. injection H2 as _ <-.
      apply list_elem_of_fmap. exists (k1, w). auto.
    + apply (IH Hnd k1 k2 w); assumption.
Qed.

Lemma map_injectiveb_true m : map_injectiveb m = true -> map_injective m.
Proof.
  unfold map_injectiveb. intros H%bool_decide_eq_true k1 k2 v H1 H2.
  apply (NoDup_snd_injective _ H k1 k2 v); apply elem_of_map_to_list;
    assumption.
Qed.

Lemma injective_lookup_NoDup (l : list (string * Z)) :
  NoDup l ->
  (forall k1 k2 v, (k1, v) ∈ l -> (k2, v) ∈ l -> k1 = k2) ->
  NoDup l.*2.
Proof.
  intros Hnd Hinj. apply NoDup_fmap_2_strong; [|exact Hnd].
  intros [k1 v1] [k2 v2] H1 H2 E. cbn [snd] in E. subst v2.
  f_equal. apply (Hinj k1 k2 v1); assumption.
Qed.

Lemma map_injectiveb_false m : map_injectiveb m = false -> ~ map_injective m.
Proof.
  unfold map_injectiveb. intros H%bool_decide_eq_false Hinj. apply H.
  apply injective_lookup_NoDup; [apply NoDup_map_to_list|].
  intros k1 k2 v H1%elem_of_map_to_list H2%elem_of_map_to_list.
  apply (Hinj k1 k2 v); assumption.
Qed.

Lemma values_avoid_true (vs : list Z) m (k : string) (v : Z) :
  values_avoid vs m = true -> m !! k = Some v -> v ∉ vs.
Proof.
  unfold values_avoid. intros H Hk.
  rewrite forallb_forall in H.
  assert (Hin : In v (map_to_list m).*2).
  { apply list_elem_of_In, list_elem_of_fmap. exists (k, v).
    split; [reflexivity|]. apply elem_of_map_to_list, Hk. }
  apply H in Hin. apply bool_decide_eq_true in Hin. exact Hin.
Qed.

(** The displays of the class bodies, entry by entry. *)
Lemma BaseSoC_csr_map_0_lookup (k : string) (v : Z) :
  BaseSoC_csr_map_0 !! k = Some v <-> k = "ddrphy" /\ v = 16.
Proof. unfold BaseSoC_csr_map_0. rewrite lookup_singleton_Some.
  split; [intros [<- <-]|intros [-> ->]]; auto. Qed.

Lemma BaseSoC_mem_map_0_lookup (k : string) (v : Z) :
  BaseSoC_mem_map_0 !! k = Some v <-> k = "firmware_ram" /\ v = 0x20000000.
Proof. unfold BaseSoC_mem_map_0. rewrite lookup_singleton_Some.
  split; [intros [<- <-]|intros [-> ->]]; auto. Qed.

Lemma MiniSoC_csr_map_0_lookup (k : string) (v : Z) :
  MiniSoC_csr_map_0 !! k = Some v <->
  (k = "ethphy" /\ v = 17) \/ (k = "ethmac" /\ v = 18).
Proof.
  unfold MiniSoC_csr_map_0.
  rewrite lookup_insert_Some, lookup_singleton_Some.
  split.
  - intros [[<- <-]|[_ [<- <-]]]; auto.
  - intros [[-> ->]|[-> ->]]; [left; auto|right]. split; [discriminate|auto].
Qed.

Lemma MiniSoC_interrupt_map_0_lookup (k : string) (v : Z) :
  MiniSoC_interrupt_map_0 !! k = Some v <-> k = "ethmac" /\ v = 2.
Proof.
  unfold MiniSoC_interrupt_map_0. rewrite lookup_singleton_Some.
  split; [intros [<- <-]|intros [-> ->]]; auto.
Qed.

Lemma MiniSoC_mem_map_0_lookup (k : string) (v : Z) :
  MiniSoC_mem_map_0 !! k = Some v <-> k = "ethmac" /\ v = 0x30000000.
Proof. unfold MiniSoC_mem_map_0. rewrite lookup_singleton_Some.
  split; [intros [<- <-]|intros [-> ->]]; auto. Qed.

End Tables.

(** ** Properties of the class tables *)

Section Classes.

Variable SDRAMSoC : soc_class.

Lemma BaseSoC_csr_map_lookup (k : string) :
  csr_map (BaseSoC SDRAMSoC) !! k =
    match csr_map SDRAMSoC !! k with
    | Some v => Some v
    | None => BaseSoC_csr_map_0 !! k
    end.
Proof. apply lookup_dict_update. Qed.

Lemma BaseSoC_mem_map_lookup (k : string) :
  mem_map (BaseSoC SDRAMSoC) !! k =
    match mem_map SDRAMSoC !! k with
    | Some v => Some v
    | None => BaseSoC_mem_map_0 !! k
    end.
Proof. apply lookup_dict_update. Qed.

Lemma MiniSoC_csr_map_lookup (k : string) :
  csr_map (MiniSoC SDRAMSoC) !! k =
    match csr_map (BaseSoC SDRAMSoC) !! k with
    | Some v => Some v
    | None => MiniSoC_csr_map_0 !! k
    end.
Proof. apply lookup_dict_update. Qed.

Lemma MiniSoC_interrupt_map_lookup (k : string) :
  interrupt_map (MiniSoC SDRAMSoC) !! k =
    match interrupt_map (BaseSoC SDRAMSoC) !! k with
    | Some v => Some v
    | None => MiniSoC_interrupt_map_0 !! k
    end.
Proof. apply lookup_dict_update. Qed.

Lemma MiniSoC_mem_map_lookup (k : string) :
  mem_map (MiniSoC SDRAMSoC) !! k =
    match mem_map (BaseSoC SDRAMSoC) !! k with
    | Some v => Some v
    | None => MiniSoC_mem_map_0 !! k
    end.
Proof. apply lookup_dict_update. Qed.

(** The keys the constructors read are always there. *)
Lemma firmware_ram_key (v : variant) :
  is_Some (mem_map (class_of v SDRAMSoC) !! "firmware_ram").
Proof.
  assert (H : is_Some (mem_map (BaseSoC SDRAMSoC) !! "firmware_ram")).
  { apply dict_update_is_Some. exists 0x20000000. reflexivity. }
  destruct v; [exact H|].
  destruct H as [x Hx]. exists x. cbn [class_of].
  rewrite MiniSoC_mem_map_lookup, Hx. reflexivity.
Qed.

Lemma ethmac_key : is_Some (mem_map (MiniSoC SDRAMSoC) !! "ethmac").
Proof. apply dict_update_is_Some. exists 0x30000000. reflexivity. Qed.

Lemma firmware_ram_base (v : variant) :
  mem_map SDRAMSoC !! "firmware_ram" = None ->
  mem_map (class_of v SDRAMSoC) !! "firmware_ram" = Some 0x20000000.
Proof.
  intros H.
  assert (HB : mem_map (BaseSoC SDRAMSoC) !! "firmware_ram" = Some 0x20000000).
  { rewrite BaseSoC_mem_map_lookup, H. reflexivity. }
  destruct v; [exact HB|]. cbn [class_of].
  rewrite MiniSoC_mem_map_lookup, HB. reflexivity.
Qed.

Lemma ethmac_base :
  mem_map SDRAMSoC !! "ethmac" = None ->
  mem_map (MiniSoC SDRAMSoC) !! "ethmac" = Some 0x30000000.
Proof.
  intros H. rewrite MiniSoC_mem_map_lookup, BaseSoC_mem_map_lookup, H.
  reflexivity.
Qed.

(** Injectivity of the merged tables, from injectivity of the parent's
    and the parent's values staying clear of those of the displays. *)
Lemma BaseSoC_csr_map_injective :
  map_injective (csr_map SDRAMSoC) ->
  values_avoid [16; 17; 18] (csr_map SDRAMSoC) = true ->
  map_injective (csr_map (BaseSoC SDRAMSoC)).
Proof.
  intros Hinj Hav. apply dict_update_injective; [exact Hinj| |].
  - intros k1 k2 v [-> _]%BaseSoC_csr_map_0_lookup
      [-> _]%BaseSoC_csr_map_0_lookup. reflexivity.
  - intros k1 k2 v [_ ->]%BaseSoC_csr_map_0_lookup H2.
    apply (values_avoid_true _ _ _ _ Hav H2). set_solver.
Qed.

Lemma MiniSoC_csr_map_injective :
  map_injective (csr_map SDRAMSoC) ->
  values_avoid [16; 17; 18] (csr_map SDRAMSoC) = true ->
  map_injective (csr_map (MiniSoC SDRAMSoC)).
Proof.
  intros Hinj Hav.
  apply dict_update_injective; [by apply BaseSoC_csr_map_injective| |].
  - intros k1 k2 v H1%MiniSoC_csr_map_0_lookup H2%MiniSoC_csr_map_0_lookup.
    destruct H1 as [[-> ->]|[-> ->]], H2 as [[-> E]|[-> E]];
      first [reflexivity | discriminate E].
  - intros k1 k2 v H1%MiniSoC_csr_map_0_lookup H2.
    rewrite BaseSoC_csr_map_lookup in H2.
    destruct (csr_map SDRAMSoC !! k2) as [w|] eqn:E.
    + injection H2 as ->.
      apply (values_avoid_true _ _ _ _ Hav E).
      destruct H1 as [[_ ->]|[_ ->]]; set_solver.
    + apply BaseSoC_csr_map_0_lookup in H2 as [_ ->].
      destruct H1 as [[_ E1]|[_ E1]]; discriminate E1.
Qed.

Lemma MiniSoC_interrupt_map_injective :
  map_injective (interrupt_map SDRAMSoC) ->
  values_avoid [2] (interrupt_map SDRAMSoC) = true ->
  map_injective (interrupt_map (MiniSoC SDRAMSoC)).
Proof.
  intros Hinj Hav. apply dict_update_injective; [exact Hinj| |].
  - intros k1 k2 v [-> _]%MiniSoC_interrupt_map_0_lookup
      [-> _]%MiniSoC_interrupt_map_0_lookup. reflexivity.
  - intros k1 k2 v [_ ->]%MiniSoC_interrupt_map_0_lookup H2.
    apply (values_avoid_true _ _ _ _ Hav H2). set_solver.
Qed.

Lemma BaseSoC_mem_map_injective :
  map_injective (mem_map SDRAMSoC) ->
  values_avoid [0x20000000; 0x30000000] (mem_map SDRAMSoC) = true ->
  map_injective (mem_map (BaseSoC SDRAMSoC)).
Proof.
  intros Hinj Hav. apply dict_update_injective; [exact Hinj| |].
  - intros k1 k2 v [-> _]%BaseSoC_mem_map_0_lookup
      [-> _]%BaseSoC_mem_map_0_lookup. reflexivity.
  - intros k1 k2 v [_ ->]%BaseSoC_mem_map_0_lookup H2.
    apply (values_avoid_true _ _ _ _ Hav H2). set_solver.
Qed.

Lemma MiniSoC_mem_map_injective :
  map_injective (mem_map SDRAMSoC) ->
  values_avoid [0x20000000; 0x30000000] (mem_map SDRAMSoC) = true ->
  map_injective (mem_map (MiniSoC SDRAMSoC)).
Proof.
  intros Hinj Hav.
  apply dict_update_injective; [by apply BaseSoC_mem_map_injective| |].
  - intros k1 k2 v [-> _]%MiniSoC_mem_map_0_lookup
      [-> _]%MiniSoC_mem_map_0_lookup. reflexivity.
  - intros k1 k2 v [_ ->]%MiniSoC_mem_map_0_lookup H2.
    rewrite BaseSoC_mem_map_lookup in H2.
    destruct (mem_map SDRAMSoC !! k2) as [w|] eqn:E.
    + injection H2 as ->.
      apply (values_avoid_true _ _ _ _ Hav E). set_solver.
    + apply BaseSoC_mem_map_0_lookup in H2 as [_ E2]. discriminate E2.
Qed.

End Classes.

(** ** Properties of the constructors *)

Section Constructors.

Variable SDRAMSoC : soc_class.
Variable kw : kwargs.

Lemma BaseSoC_init_Some (cls : soc_class) (fw : Z) :
  mem_map cls !! "firmware_ram" = Some fw ->
  BaseSoC_init cls kw =
    Some ([ Submodule "crg";
            Submodule "firmware_ram";
            RegisterMem "firmware_ram" fw (firmware_ram_size kw) ]
          ++ (if negb (truthy (integrated_main_ram_size kw))
              then Submodule "ddrphy"
                     :: (CombStmt <$> ddrphy_netlist)
                     ++ [ RegisterSdramPhy "ddrphy" ]
              else [])).
Proof. intros H. unfold BaseSoC_init. rewrite H. reflexivity. Qed.

Lemma MiniSoC_init_Some (cls : soc_class) (fw eth : Z) :
  mem_map cls !! "firmware_ram" = Some fw ->
  mem_map cls !! "ethmac" = Some eth ->
  MiniSoC_init cls kw =
    Some (([ Submodule "crg";
             Submodule "firmware_ram";
             RegisterMem "firmware_ram" fw (firmware_ram_size kw) ]
           ++ (if negb (truthy (integrated_main_ram_size kw))
               then Submodule "ddrphy"
                      :: (CombStmt <$> ddrphy_netlist)
                      ++ [ RegisterSdramPhy "ddrphy" ]
               else []))
          ++ [ Submodule "ethphy";
               Submodule "ethmac";
               AddWbSlave eth "ethmac";
               AddMemoryRegion "ethmac" (eth + shadow_base cls) 0x2000 ]).
Proof.
  intros Hfw Heth. unfold MiniSoC_init.
  rewrite (BaseSoC_init_Some cls fw Hfw). cbn [mbind option_bind].
  rewrite Heth. reflexivity.
Qed.

Lemma truthy_false (z : Z) : negb (truthy z) = true <-> z = 0.
Proof.
  unfold truthy. rewrite negb_involutive. apply Z.eqb_eq.
Qed.

(** Every construction succeeds, and its actions are those of
    [BaseSoC.__init__] followed, for [MiniSoC], by the Ethernet ones. *)
Lemma construct_Some (v : variant) :
  exists fw eth,
    mem_map (class_of v SDRAMSoC) !! "firmware_ram" = Some fw /\
    mem_map (MiniSoC SDRAMSoC) !! "ethmac" = Some eth /\
    construct v SDRAMSoC kw =
      Some (([ Submodule "crg";
               Submodule "firmware_ram";
               RegisterMem "firmware_ram" fw (firmware_ram_size kw) ]
             ++ (if negb (truthy (integrated_main_ram_size kw))
                 then Submodule "ddrphy"
                        :: (CombStmt <$> ddrphy_netlist)
                        ++ [ RegisterSdramPhy "ddrphy" ]
                 else []))
            ++ match v with
               | VBaseSoC => []
               | VMiniSoC =>
                   [ Submodule "ethphy";
                     Submodule "ethmac";
                     AddWbSlave eth "ethmac";
                     AddMemoryRegion "ethmac"
                       (eth + shadow_base (MiniSoC SDRAMSoC)) 0x2000 ]
               end).
Proof.
  destruct (firmware_ram_key SDRAMSoC v) as [fw Hfw].
  destruct (ethmac_key SDRAMSoC) as [eth Heth].
  exists fw, eth. split; [exact Hfw|]. split; [exact Heth|].
  destruct v; cbn [construct class_of] in *.
  - rewrite (BaseSoC_init_Some _ fw Hfw), app_nil_r. reflexivity.
  - apply MiniSoC_init_Some; assumption.
Qed.

Lemma construct_netlist (v : variant) (acts : list action) :
  construct v SDRAMSoC kw = Some acts ->
  soc_netlist acts =
    crg_netlist
    ++ (if negb (truthy (integrated_main_ram_size kw))
        then ddrphy_netlist else []).
Proof.
  destruct (construct_Some v) as (fw & eth & _ & _ & ->).
  intros [= <-]. unfold soc_netlist. f_equal.
  destruct (negb (truthy (integrated_main_ram_size kw))), v; reflexivity.
Qed.

End Constructors.

(** ** The claims on tables and composition *)

(** C2, as written, fails: the display of [BaseSoC] gives "ddrphy" the
    index 16, the parent gives it 5, and the merged table holds 5; the
    display of [MiniSoC] gives "ethmac" the index 18, [BaseSoC] has 7 for
    it, and the merged table holds 7. *)
Lemma derived_entry_replaced_by_base :
  BaseSoC_csr_map_0 !! "ddrphy" = Some 16 /\
  csr_map colliding_SDRAMSoC !! "ddrphy" = Some 5 /\
  csr_map (BaseSoC colliding_SDRAMSoC) !! "ddrphy" = Some 5 /\
  MiniSoC_csr_map_0 !! "ethmac" = Some 18 /\
  csr_map (BaseSoC colliding_SDRAMSoC) !! "ethmac" = Some 7 /\
  csr_map (MiniSoC colliding_SDRAMSoC) !! "ethmac" = Some 7.
Proof. vm_compute. repeat split. Qed.

(** C2, amended.  When a name is both in the display of a class and in
    the table of its parent, the merged table holds the parent's value;
    this for each table of [BaseSoC] over [SDRAMSoC] and of [MiniSoC]
    over [BaseSoC].  The merge is a total function: nothing is raised. *)
Theorem base_layer_wins_on_collision
    (SDRAMSoC : soc_class) (name : string) (vd vb : Z) :
  (BaseSoC_csr_map_0 !! name = Some vd ->
   csr_map SDRAMSoC !! name = Some vb ->
   csr_map (BaseSoC SDRAMSoC) !! name = Some vb) /\
  (BaseSoC_mem_map_0 !! name = Some vd ->
   mem_map SDRAMSoC !! name = Some vb ->
   mem_map (BaseSoC SDRAMSoC) !! name = Some vb) /\
  (MiniSoC_csr_map_0 !! name = Some vd ->
   csr_map (BaseSoC SDRAMSoC) !! name = Some vb ->
   csr_map (MiniSoC SDRAMSoC) !! name = Some vb) /\
  (MiniSoC_interrupt_map_0 !! name = Some vd ->
   interrupt_map (BaseSoC SDRAMSoC) !! name = Some vb ->
   interrupt_map (MiniSoC SDRAMSoC) !! name = Some vb) /\
  (MiniSoC_mem_map_0 !! name = Some vd ->
   mem_map (BaseSoC SDRAMSoC) !! name = Some vb ->
   mem_map (MiniSoC SDRAMSoC) !! name = Some vb).
Proof.
  repeat split; intros _ H; apply dict_update_other; exact H.
Qed.

Lemma base_layer_wins_on_collision_witness :
  BaseSoC_csr_map_0 !! "ddrphy" = Some 16 /\
  csr_map colliding_SDRAMSoC !! "ddrphy" = Some 5 /\
  csr_map (BaseSoC colliding_SDRAMSoC) !! "ddrphy" = Some 5.
Proof.
  assert (H1 : BaseSoC_csr_map_0 !! "ddrphy" = Some 16) by reflexivity.
  assert (H2 : csr_map colliding_SDRAMSoC !! "ddrphy" = Some 5)
    by (vm_compute; reflexivity).
  split; [exact H1|]. split; [exact H2|].
  exact (proj1 (base_layer_wins_on_collision colliding_SDRAMSoC "ddrphy" 16 5)
           H1 H2).
Defined.

(** A name of a display that the parent does not have keeps the value
    of the display. *)
Lemma derived_layer_adds_new_names (SDRAMSoC : soc_class) (name : string) :
  (csr_map SDRAMSoC !! name = None ->
   csr_map (BaseSoC SDRAMSoC) !! name = BaseSoC_csr_map_0 !! name) /\
  (csr_map (BaseSoC SDRAMSoC) !! name = None ->
   csr_map (MiniSoC SDRAMSoC) !! name = MiniSoC_csr_map_0 !! name).
Proof. split; intros H; apply dict_update_new; exact H. Qed.

(** C3, as written, fails.  With a firmware RAM of [0x10000001] bytes
    the region of "firmware_ram" contains the base address of "ethmac";
    and over a parent that has a register bank at index 16, "spiflash"
    and "ddrphy" share that index. *)
Lemma merged_tables_can_collide :
  (exists acts,
      construct VMiniSoC bare_SDRAMSoC large_firmware_kwargs = Some acts /\
      regions (MiniSoC bare_SDRAMSoC) acts =
        [ ("firmware_ram", 0x20000000, 0x10000001);
          ("ethmac", 0x30000000, 0x2000) ] /\
      ranges_overlap 0x20000000 0x10000001 0x30000000 0x2000 = true /\
      regions_disjoint (regions (MiniSoC bare_SDRAMSoC) acts) = false) /\
  csr_map (BaseSoC spiflash_SDRAMSoC) !! "spiflash" = Some 16 /\
  csr_map (BaseSoC spiflash_SDRAMSoC) !! "ddrphy" = Some 16 /\
  map_injectiveb (csr_map (BaseSoC spiflash_SDRAMSoC)) = false /\
  ~ map_injective (csr_map (BaseSoC spiflash_SDRAMSoC)).
Proof.
  split; [eexists; split; [vm_compute; reflexivity|]; vm_compute; repeat split|].
  split; [vm_compute; reflexivity|]. split; [vm_compute; reflexivity|].
  split; [vm_compute; reflexivity|].
  apply map_injectiveb_false. vm_compute. reflexivity.
Qed.

(** C3, amended.  Let the tables of the parent be injective, with no
    register bank at 16, 17 or 18, no interrupt on line 2, no region
    based at [0x20000000] or [0x30000000] and none named "firmware_ram"
    or "ethmac", and let the firmware RAM be at most [0x10000000] bytes.
    Then the three merged tables of either variant are injective, the
    construction succeeds, and its regions ("firmware_ram" at
    [0x20000000], and for [MiniSoC] "ethmac" at [0x30000000] of size
    [0x2000]) do not overlap. *)
Theorem merged_tables_injective
    (v : variant) (SDRAMSoC : soc_class) (kw : kwargs) :
  map_injectiveb (csr_map SDRAMSoC) = true ->
  values_avoid [16; 17; 18] (csr_map SDRAMSoC) = true ->
  map_injectiveb (interrupt_map SDRAMSoC) = true ->
  values_avoid [2] (interrupt_map SDRAMSoC) = true ->
  map_injectiveb (mem_map SDRAMSoC) = true ->
  values_avoid [0x20000000; 0x30000000] (mem_map SDRAMSoC) = true ->
  mem_map SDRAMSoC !! "firmware_ram" = None ->
  mem_map SDRAMSoC !! "ethmac" = None ->
  firmware_ram_size kw <= 0x10000000 ->
  map_injective (csr_map (class_of v SDRAMSoC)) /\
  map_injective (interrupt_map (class_of v SDRAMSoC)) /\
  map_injective (mem_map (class_of v SDRAMSoC)) /\
  exists acts,
    construct v SDRAMSoC kw = Some acts /\
    regions (class_of v SDRAMSoC) acts =
      ("firmware_ram", 0x20000000, firmware_ram_size kw)
        :: match v with
           | VBaseSoC => []
           | VMiniSoC => [ ("ethmac", 0x30000000, 0x2000) ]
           end /\
    regions_disjoint (regions (class_of v SDRAMSoC) acts) = true.
Proof.
  intros Hc%map_injectiveb_true Hca Hi%map_injectiveb_true Hia
    Hm%map_injectiveb_true Hma Hfw Heth Hsz.
  split; [destruct v; cbn [class_of];
          [apply BaseSoC_csr_map_injective|apply MiniSoC_csr_map_injective];
          assumption|].
  split; [destruct v; cbn [class_of];
          [exact Hi|apply MiniSoC_interrupt_map_injective; assumption]|].
  split; [destruct v; cbn [class_of];
          [apply BaseSoC_mem_map_injective|apply MiniSoC_mem_map_injective];
          assumption|].
  destruct (construct_Some SDRAMSoC kw v) as (fw & eth & Hfw' & Heth' & Hacts).
  rewrite (firmware_ram_base SDRAMSoC v Hfw) in Hfw'. injection Hfw' as <-.
  rewrite (ethmac_base SDRAMSoC Heth) in Heth'. injection Heth' as <-.
  eexists. split; [exact Hacts|].
  assert (Hreg :
    regions (class_of v SDRAMSoC)
      (([ Submodule "crg"; Submodule "firmware_ram";
          RegisterMem "firmware_ram" 0x20000000 (firmware_ram_size kw) ]
        ++ (if negb (truthy (integrated_main_ram_size kw))
            then Submodule "ddrphy"
                   :: (CombStmt <$> ddrphy_netlist)
                   ++ [ RegisterSdramPhy "ddrphy" ]
            else []))
       ++ match v with
          | VBaseSoC => []
          | VMiniSoC =>
              [ Submodule "ethphy"; Submodule "ethmac";
                AddWbSlave 0x30000000 "ethmac";
                AddMemoryRegion "ethmac"
                  (0x30000000 + shadow_base (MiniSoC SDRAMSoC)) 0x2000 ]
          end)
    = ("firmware_ram", 0x20000000, firmware_ram_size kw)
        :: match v with
           | VBaseSoC => []
           | VMiniSoC => [ ("ethmac", 0x30000000, 0x2000) ]
           end).
  { unfold regions.
    destruct (negb (truthy (integrated_main_ram_size kw))), v;
      cbn [app omap list_omap fmap list_fmap ddrphy_netlist class_of
           option_bind mbind];
      repeat f_equal; lia. }
  split; [exact Hreg|]. rewrite Hreg.
  destruct v; [reflexivity|].
  cbn [regions_disjoint forallb]. unfold ranges_overlap.
  rewrite !andb_true_r. apply negb_true_iff, andb_false_iff. right.
  apply Z.ltb_ge. lia.
Qed.

Lemma merged_tables_injective_witness :
  map_injective (csr_map (class_of VMiniSoC sample_SDRAMSoC)) /\
  map_injective (interrupt_map (class_of VMiniSoC sample_SDRAMSoC)) /\
  map_injective (mem_map (class_of VMiniSoC sample_SDRAMSoC)) /\
  exists acts,
    construct VMiniSoC sample_SDRAMSoC default_kwargs = Some acts /\
    regions (class_of VMiniSoC sample_SDRAMSoC) acts =
      [ ("firmware_ram", 0x20000000, firmware_ram_size default_kwargs);
        ("ethmac", 0x30000000, 0x2000) ] /\
    regions_disjoint (regions (class_of VMiniSoC sample_SDRAMSoC) acts) = true.
Proof.
  apply (merged_tables_injective VMiniSoC sample_SDRAMSoC default_kwargs);
    vm_compute; first [reflexivity | discriminate].
Defined.

(** C5. In every constructed SoC the CRG is a submodule, and in its
    netlist the clock of [sdram_full_rd] has one driver, the
    combinatorial copy of the clock of [sdram_full_wr], and is the
    output of no primitive; likewise [clk4x_rd_strb] and
    [clk4x_wr_strb].  The write clock and strobe are the outputs of the
    one [BUFPLL].  Whatever the outputs of the primitives, the read
    clock has the level of the write clock, and the read strobe that of
    the write strobe. *)
Theorem sdram_read_domain_aliases_write_domain
    (v : variant) (SDRAMSoC : soc_class) (kw : kwargs)
    (env : signal -> bool) :
  exists acts,
    construct v SDRAMSoC kw = Some acts /\
    Submodule "crg" ∈ acts /\
    let nl := soc_netlist acts in
    comb_drivers nl cd_sdram_full_rd_clk = [cd_sdram_full_wr_clk] /\
    inst_drivers nl cd_sdram_full_rd_clk = [] /\
    comb_drivers nl clk4x_rd_strb = [clk4x_wr_strb] /\
    inst_drivers nl clk4x_rd_strb = [] /\
    comb_drivers nl cd_sdram_full_wr_clk = [] /\
    inst_drivers nl cd_sdram_full_wr_clk = ["BUFPLL"] /\
    comb_drivers nl clk4x_wr_strb = [] /\
    inst_drivers nl clk4x_wr_strb = ["BUFPLL"] /\
    level nl env cd_sdram_full_rd_clk = level nl env cd_sdram_full_wr_clk /\
    level nl env clk4x_rd_strb = level nl env clk4x_wr_strb.
Proof.
  destruct (construct_Some SDRAMSoC kw v) as (fw & eth & _ & _ & Hacts).
  eexists. split; [exact Hacts|].
  split; [in_list|].
  rewrite (construct_netlist SDRAMSoC kw v _ Hacts).
  destruct (negb (truthy (integrated_main_ram_size kw)));
    cbv zeta; unfold level; vm_compute; repeat split.
Qed.

(** Where the DDR PHY is installed, both of its strobes are copies of
    the strobe that the [BUFPLL] of the CRG drives. *)
Lemma ddrphy_strobes_from_crg (env : signal -> bool) :
  let nl := crg_netlist ++ ddrphy_netlist in
  origin (length nl) nl ddrphy_clk4x_wr_strb = clk4x_wr_strb /\
  origin (length nl) nl ddrphy_clk4x_rd_strb = clk4x_wr_strb /\
  level nl env ddrphy_clk4x_rd_strb = level nl env ddrphy_clk4x_wr_strb.
Proof. cbv zeta. unfold level. vm_compute. repeat split. Qed.

Section Membership.

Variable SDRAMSoC : soc_class.
Variable kw : kwargs.

Lemma ddrphy_membership (v : variant) (acts : list action) :
  construct v SDRAMSoC kw = Some acts ->
  (Submodule "ddrphy" ∈ acts <-> integrated_main_ram_size kw = 0) /\
  (RegisterSdramPhy "ddrphy" ∈ acts <-> integrated_main_ram_size kw = 0) /\
  (forall s, CombStmt s ∈ acts <->
             integrated_main_ram_size kw = 0 /\ s ∈ ddrphy_netlist).
Proof.
  destruct (construct_Some SDRAMSoC kw v) as (fw & eth & _ & _ & ->).
  intros [= <-]. unfold truthy. rewrite negb_involutive.
  destruct (Z.eqb_spec (integrated_main_ram_size kw) 0) as [E|E];
    destruct v; unfold ddrphy_netlist; cbn [app fmap list_fmap];
    (split; [|split; [|intros s]]);
    rewrite ?elem_of_cons, ?elem_of_nil;
    intuition
      (subst;
       try first [ discriminate | congruence
                 | repeat first [left; reflexivity | right] ]).
Qed.

End Membership.

(** C6, as written, fails: with integrated main RAM ([0x4000] bytes)
    the DDR PHY is not a submodule, yet "ddrphy" is in the merged
    [csr_map], with index 16. *)
Lemma ddrphy_csr_entry_without_ddrphy :
  exists acts,
    construct VBaseSoC sample_SDRAMSoC integrated_ram_kwargs = Some acts /\
    integrated_main_ram_size integrated_ram_kwargs = 0x4000 /\
    (Submodule "ddrphy" ∉ acts) /\
    (RegisterSdramPhy "ddrphy" ∉ acts) /\
    csr_map (BaseSoC sample_SDRAMSoC) !! "ddrphy" = Some 16.
Proof.
  eexists. split; [vm_compute; reflexivity|].
  split; [reflexivity|].
  split; [not_in_list|]. split; [not_in_list|].
  vm_compute. reflexivity.
Qed.

(** C6, amended.  The DDR PHY is a submodule, wired to the strobes of
    the CRG and registered with [register_sdram_phy], exactly when
    [integrated_main_ram_size] is zero.  The entry "ddrphy" of the merged
    [csr_map] is there in either case; it is 16 unless the parent has an
    entry of that name. *)
Theorem ddrphy_installed_iff_no_integrated_ram
    (v : variant) (SDRAMSoC : soc_class) (kw : kwargs) :
  exists acts,
    construct v SDRAMSoC kw = Some acts /\
    (Submodule "ddrphy" ∈ acts <-> integrated_main_ram_size kw = 0) /\
    (RegisterSdramPhy "ddrphy" ∈ acts <-> integrated_main_ram_size kw = 0) /\
    (forall s, CombStmt s ∈ acts <->
               integrated_main_ram_size kw = 0 /\ s ∈ ddrphy_netlist) /\
    is_Some (csr_map (class_of v SDRAMSoC) !! "ddrphy") /\
    (csr_map SDRAMSoC !! "ddrphy" = None ->
     csr_map (class_of v SDRAMSoC) !! "ddrphy" = Some 16).
Proof.
  destruct (construct_Some SDRAMSoC kw v) as (fw & eth & _ & _ & Hacts).
  eexists. split; [exact Hacts|].
  destruct (ddrphy_membership SDRAMSoC kw v _ Hacts) as (H1 & H2 & H3).
  split; [exact H1|]. split; [exact H2|]. split; [exact H3|].
  assert (HB : is_Some (csr_map (BaseSoC SDRAMSoC) !! "ddrphy")).
  { apply dict_update_is_Some. exists 16. reflexivity. }
  split.
  - destruct v; [exact HB|]. destruct HB as [x Hx]. exists x.
    cbn [class_of]. rewrite MiniSoC_csr_map_lookup, Hx. reflexivity.
  - intros Hnone.
    assert (HB16 : csr_map (BaseSoC SDRAMSoC) !! "ddrphy" = Some 16).
    { rewrite BaseSoC_csr_map_lookup, Hnone. reflexivity. }
    destruct v; [exact HB16|]. cbn [class_of].
    rewrite MiniSoC_csr_map_lookup, HB16. reflexivity.
Qed.

Lemma ddrphy_installed_iff_no_integrated_ram_witness :
  csr_map sample_SDRAMSoC !! "ddrphy" = None /\
  exists acts,
    construct VMiniSoC sample_SDRAMSoC default_kwargs = Some acts /\
    Submodule "ddrphy" ∈ acts /\
    csr_map (class_of VMiniSoC sample_SDRAMSoC) !! "ddrphy" = Some 16.
Proof.
  assert (Hnone : csr_map sample_SDRAMSoC !! "ddrphy" = None)
    by (vm_compute; reflexivity).
  split; [exact Hnone|].
  destruct (ddrphy_installed_iff_no_integrated_ram
              VMiniSoC sample_SDRAMSoC default_kwargs)
    as (acts & Hacts & Hsub & _ & _ & _ & H16).
  exists acts. split; [exact Hacts|].
  split; [apply Hsub; reflexivity | exact (H16 Hnone)].
Defined.

(** C7. [MiniSoC.__init__] registers the region "ethmac" at
    [mem_map["ethmac"]] plus [shadow_base], with size [0x2000], and
    decodes its bus at [mem_map["ethmac"]]; it is the only call of
    [add_memory_region] of the two constructors.  [mem_map["ethmac"]] is
    [0x30000000] unless the parent has an entry of that name. *)
Theorem ethmac_region_at_shadow_address (SDRAMSoC : soc_class) (kw : kwargs) :
  exists acts base,
    construct VMiniSoC SDRAMSoC kw = Some acts /\
    mem_map (MiniSoC SDRAMSoC) !! "ethmac" = Some base /\
    AddWbSlave base "ethmac" ∈ acts /\
    AddMemoryRegion "ethmac" (base + shadow_base (MiniSoC SDRAMSoC)) 0x2000
      ∈ acts /\
    (forall n o l,
        AddMemoryRegion n o l ∈ acts ->
        n = "ethmac" /\ o = base + shadow_base (MiniSoC SDRAMSoC)
        /\ l = 0x2000) /\
    shadow_base (MiniSoC SDRAMSoC) = shadow_base SDRAMSoC /\
    (mem_map SDRAMSoC !! "ethmac" = None -> base = 0x30000000).
Proof.
  destruct (construct_Some SDRAMSoC kw VMiniSoC)
    as (fw & eth & _ & Heth & Hacts).
  eexists. exists eth. split; [exact Hacts|]. split; [exact Heth|].
  split; [destruct (negb (truthy (integrated_main_ram_size kw))); in_list|].
  split; [destruct (negb (truthy (integrated_main_ram_size kw))); in_list|].
  split.
  - intros n o l Hin.
    destruct (negb (truthy (integrated_main_ram_size kw)));
      cbn [app fmap list_fmap ddrphy_netlist] in Hin;
      repeat (apply elem_of_cons in Hin as [Hin|Hin];
              [first [discriminate Hin | injection Hin as -> -> ->; auto]|]);
      inversion Hin.
  - split; [reflexivity|].
    intros Hnone. rewrite (ethmac_base SDRAMSoC Hnone) in Heth.
    congruence.
Qed.

Lemma ethmac_region_at_shadow_address_witness :
  mem_map sample_SDRAMSoC !! "ethmac" = None /\
  exists acts,
    construct VMiniSoC sample_SDRAMSoC default_kwargs = Some acts /\
    AddMemoryRegion "ethmac" (0x30000000 + 0x80000000) 0x2000 ∈ acts.
Proof.
  assert (Hnone : mem_map sample_SDRAMSoC !! "ethmac" = None)
    by (vm_compute; reflexivity).
  split; [exact Hnone|].
  destruct (ethmac_region_at_shadow_address sample_SDRAMSoC default_kwargs)
    as (acts & base & Hacts & _ & _ & Hreg & _ & _ & Hbase).
  exists acts. split; [exact Hacts|].
  rewrite (Hbase Hnone) in Hreg. exact Hreg.
Defined.



(** * Further properties of the code *)

(** ** The PLL multiplier *)

Section Multiplier.

Variable ref : Z.
Hypothesis ref_pos : 0 < ref.

(** [m*p//n] is [clk_freq*p//ref]: reducing the fraction does not change
    the quotient. *)
Lemma reduced_quotient (a : Z) :
  a / Z.gcd a ref * p / (ref / Z.gcd a ref) = a * p / ref.
Proof.
  pose proof (gcd_ref_pos ref ref_pos a) as Hg.
  pose proof (den_mul_gcd ref ref_pos a) as Hr.
  pose proof (num_mul_gcd ref ref_pos a) as Ha.
  set (g := Z.gcd a ref) in *. set (n := ref / g) in *. set (m := a / g) in *.
  rewrite <- (Z.div_mul_cancel_r (m * p) n g) by lia.
  f_equal; lia.
Qed.

End Multiplier.

Lemma f0_eq : f0 = 12500000 * 8.
Proof. reflexivity. Qed.

Lemma crg_pll_mult (clk_freq : Z) :
  0 <= clk_freq < 2 ^ 53 ->
  _CRG_pll clk_freq =
    Ok {| DIVCLK_DIVIDE := 1;
          CLKFBOUT_MULT := clk_freq / 12500000;
          CLKOUT0_PHASE := 0;   CLKOUT0_DIVIDE := 2;
          CLKOUT1_PHASE := 0;   CLKOUT1_DIVIDE := 2;
          CLKOUT2_PHASE := 270; CLKOUT2_DIVIDE := 4;
          CLKOUT3_PHASE := 250; CLKOUT3_DIVIDE := 4;
          CLKOUT4_PHASE := 0;   CLKOUT4_DIVIDE := 8;
          CLKOUT5_PHASE := 0;   CLKOUT5_DIVIDE := 8 |}.
Proof.
  intros H53.
  unfold _CRG_pll. rewrite (pll_from_ok f0 f0_pos _ f0_53 H53).
  rewrite (reduced_quotient f0 f0_pos).
  replace (clk_freq * p / f0) with (clk_freq / 12500000);
    [reflexivity|].
  rewrite f0_eq. unfold p.
  symmetry. apply Z.div_mul_cancel_r; lia.
Qed.

(** X1. For every target from 0 up to 2^53, where the float assertion
    is exact, the constructor succeeds, and the multiplier it hands to
    the PLL is the target floor-divided by 12.5 MHz (the reference over
    [p]). *)
Theorem crg_pll_multiplier_is_floor (clk_freq : Z) :
  0 <= clk_freq < 2 ^ 53 ->
  exists pll,
    _CRG_pll clk_freq = Ok pll /\
    DIVCLK_DIVIDE pll = 1 /\
    CLKFBOUT_MULT pll = clk_freq / 12500000.
Proof.
  intros H53. eexists. split; [apply crg_pll_mult, H53|]. split; reflexivity.
Qed.

Lemma crg_pll_multiplier_is_floor_witness :
  exists pll,
    _CRG_pll 133000000 = Ok pll /\
    DIVCLK_DIVIDE pll = 1 /\
    CLKFBOUT_MULT pll = 10.
Proof. apply (crg_pll_multiplier_is_floor 133000000). lia. Defined.

Lemma crg_sys_clk_hz (clk_freq : Z) :
  sys_clk_hz f0
    {| DIVCLK_DIVIDE := 1;
       CLKFBOUT_MULT := clk_freq / 12500000;
       CLKOUT0_PHASE := 0;   CLKOUT0_DIVIDE := 2;
       CLKOUT1_PHASE := 0;   CLKOUT1_DIVIDE := 2;
       CLKOUT2_PHASE := 270; CLKOUT2_DIVIDE := 4;
       CLKOUT3_PHASE := 250; CLKOUT3_DIVIDE := 4;
       CLKOUT4_PHASE := 0;   CLKOUT4_DIVIDE := 8;
       CLKOUT5_PHASE := 0;   CLKOUT5_DIVIDE := 8 |}
  = 12500000 * (clk_freq / 12500000).
Proof.
  unfold sys_clk_hz, sys_clk_num, sys_clk_den.
  cbn [CLKFBOUT_MULT DIVCLK_DIVIDE CLKOUT5_DIVIDE].
  rewrite f0_eq.
  replace (12500000 * 8 * (clk_freq / 12500000))
    with (12500000 * (clk_freq / 12500000) * 8) by lia.
  replace (1 * 8) with 8 by lia.
  apply Z.div_mul. lia.
Qed.

(** X2. For a target from 0 up to 2^53, the system clock that the PLL
    produces is the target rounded down to a multiple of 12.5 MHz: never
    above the target, and less than 12.5 MHz below it. *)
Theorem crg_sys_clk_rounds_down (clk_freq : Z) :
  0 <= clk_freq < 2 ^ 53 ->
  exists pll,
    _CRG_pll clk_freq = Ok pll /\
    sys_clk_hz f0 pll = 12500000 * (clk_freq / 12500000) /\
    sys_clk_hz f0 pll <= clk_freq < sys_clk_hz f0 pll + 12500000.
Proof.
  intros H53. eexists. split; [apply crg_pll_mult, H53|].
  rewrite crg_sys_clk_hz. split; [reflexivity|].
  pose proof (Z.mul_div_le clk_freq 12500000).
  pose proof (Z.mul_succ_div_gt clk_freq 12500000). lia.
Qed.

Lemma crg_sys_clk_rounds_down_witness :
  exists pll,
    _CRG_pll 133000000 = Ok pll /\
    sys_clk_hz f0 pll = 125000000 /\
    sys_clk_hz f0 pll <= 133000000 < sys_clk_hz f0 pll + 12500000.
Proof. apply (crg_sys_clk_rounds_down 133000000). lia. Defined.

(** X3. For a target from 0 up to 2^53, the system clock is the
    target, with remainder zero, exactly when the target is a multiple
    of 12.5 MHz. *)
Theorem crg_sys_clk_exact_iff (clk_freq : Z) :
  0 <= clk_freq < 2 ^ 53 ->
  exists pll,
    _CRG_pll clk_freq = Ok pll /\
    (sys_clk_exact f0 pll clk_freq <-> clk_freq mod 12500000 = 0).
Proof.
  intros H53. eexists. split; [apply crg_pll_mult, H53|].
  unfold sys_clk_exact. rewrite crg_sys_clk_hz.
  pose proof (Z.div_mod clk_freq 12500000) as Hdm.
  split.
  - intros [_ H]. lia.
  - intros H. split; [|lia].
    unfold sys_clk_num, sys_clk_den.
    cbn [CLKFBOUT_MULT DIVCLK_DIVIDE CLKOUT5_DIVIDE].
    rewrite f0_eq.
    replace (12500000 * 8 * (clk_freq / 12500000))
      with (12500000 * (clk_freq / 12500000) * (1 * 8)) by lia.
    apply Z.mod_mul. lia.
Qed.

Lemma crg_sys_clk_exact_iff_witness :
  exists pll,
    _CRG_pll 50000000 = Ok pll /\
    (sys_clk_exact f0 pll 50000000 <-> 50000000 mod 12500000 = 0).
Proof. apply (crg_sys_clk_exact_iff 50000000). lia. Defined.

(** X4. The pair the constructor reads off the fraction: the
    denominator is positive and divides the reference, numerator and
    denominator have no common factor, and numerator over denominator
    is the target over the reference. *)
Theorem crg_fraction_lowest_terms (clk_freq : Z) :
  exists f,
    Fraction_new clk_freq f0 = Ok f /\
    0 < denominator f /\
    (denominator f | f0) /\
    Z.gcd (numerator f) (denominator f) = 1 /\
    numerator f * f0 = clk_freq * denominator f.
Proof.
  eexists. split; [apply (Fraction_new_pos_den f0 f0_pos)|].
  cbn [numerator denominator].
  pose proof (gcd_ref_pos f0 f0_pos clk_freq) as Hg.
  pose proof (den_mul_gcd f0 f0_pos clk_freq) as Hr.
  pose proof (num_mul_gcd f0 f0_pos clk_freq) as Ha.
  split; [apply (den_pos f0 f0_pos)|].
  split; [apply (den_divides_ref f0 f0_pos)|].
  split; [apply Z.gcd_div_gcd; [lia|reflexivity]|].
  set (g := Z.gcd clk_freq f0) in *.
  rewrite <- Hr at 1. rewrite <- Ha at 2. lia.
Qed.

(** X5. Whatever the target from 0 up to 2^53, the taps of the PLL
    keep their ratios to the system clock (tap 5): taps 0 and 1, the
    full-rate SDRAM clock, run at four times its frequency and taps 2
    and 3, the half-rate ones, at twice, with no remainder; tap 4 runs
    at the system clock. *)
Theorem crg_tap_ratios (clk_freq : Z) :
  0 <= clk_freq < 2 ^ 53 ->
  exists pll,
    _CRG_pll clk_freq = Ok pll /\
    clkout_hz f0 pll (CLKOUT5_DIVIDE pll) = sys_clk_hz f0 pll /\
    clkout_hz f0 pll (CLKOUT0_DIVIDE pll) = 4 * sys_clk_hz f0 pll /\
    clkout_hz f0 pll (CLKOUT1_DIVIDE pll) = 4 * sys_clk_hz f0 pll /\
    clkout_hz f0 pll (CLKOUT2_DIVIDE pll) = 2 * sys_clk_hz f0 pll /\
    clkout_hz f0 pll (CLKOUT3_DIVIDE pll) = 2 * sys_clk_hz f0 pll /\
    clkout_hz f0 pll (CLKOUT4_DIVIDE pll) = sys_clk_hz f0 pll.
Proof.
  intros H53. eexists. split; [apply crg_pll_mult, H53|].
  rewrite crg_sys_clk_hz. unfold clkout_hz, vco_hz.
  cbn [CLKFBOUT_MULT DIVCLK_DIVIDE CLKOUT0_DIVIDE CLKOUT1_DIVIDE
       CLKOUT2_DIVIDE CLKOUT3_DIVIDE CLKOUT4_DIVIDE CLKOUT5_DIVIDE].
  rewrite Z.div_1_r, f0_eq.
  set (q := clk_freq / 12500000).
  assert (H8 : 12500000 * 8 * q / 8 = 12500000 * q).
  { replace (12500000 * 8 * q) with (12500000 * q * 8) by lia.
    apply Z.div_mul. lia. }
  assert (H4 : 12500000 * 8 * q / 4 = 2 * (12500000 * q)).
  { replace (12500000 * 8 * q) with (2 * (12500000 * q) * 4) by lia.
    apply Z.div_mul. lia. }
  assert (H2 : 12500000 * 8 * q / 2 = 4 * (12500000 * q)).
  { replace (12500000 * 8 * q) with (4 * (12500000 * q) * 2) by lia.
    apply Z.div_mul. lia. }
  rewrite H8, H4, H2. repeat split.
Qed.

Lemma crg_tap_ratios_witness :
  exists pll,
    _CRG_pll 75000000 = Ok pll /\
    sys_clk_hz f0 pll = 75000000 /\
    clkout_hz f0 pll (CLKOUT0_DIVIDE pll) = 300000000 /\
    clkout_hz f0 pll (CLKOUT2_DIVIDE pll) = 150000000.
Proof.
  destruct (crg_tap_ratios 75000000 ltac:(lia))
    as (pll & Hpll & _ & H0 & _ & H2 & _).
  exists pll.
  assert (Hs : sys_clk_hz f0 pll = 75000000).
  { rewrite crg_pll_mult in Hpll by lia. injection Hpll as <-. reflexivity. }
  split; [exact Hpll|]. split; [exact Hs|].
  rewrite H0, H2, Hs. split; reflexivity.
Defined.

(** ** The reset sequence *)

Lemma crg_run_snoc (tr : list crg_inputs) (i : crg_inputs) (st : crg_state) :
  crg_run (tr ++ [i]) st = crg_tick (crg_run tr st) i.
Proof. unfold crg_run. rewrite fold_left_app. reflexivity. Qed.

(** X6. After any sequence of inputs the counter is within its 11 bits,
    and a tick either reloads it (reset of the [por] domain) or brings
    it one down, stopping at zero: the truncation of [por - 1] never
    wraps. *)
Theorem por_counter_never_wraps (tr : list crg_inputs) (i : crg_inputs) :
  let st := crg_run tr crg_init in
  0 <= por st < Z.shiftl 1 11 /\
  por (crg_tick st i)
  = (if cd_por_rst st i then Z.shiftl 1 11 - 1 else Z.max 0 (por st - 1)).
Proof.
  intros st.
  assert (Hr : por_in_range st) by apply crg_run_in_range, crg_init_in_range.
  unfold por_in_range in Hr. rewrite por_max_eq in Hr.
  split; [exact Hr|].
  cbn [crg_tick por]. unfold por_tick.
  destruct (cd_por_rst st i); [reflexivity|].
  destruct (Z.eq_dec (por st) 0) as [E|E].
  - rewrite E. reflexivity.
  - rewrite por_next_pos by (rewrite por_max_eq; lia). lia.
Qed.

(** X7. Pressing the reset button ([cpu_reset] low) during a cycle
    reloads the counter at the next clock edge, whatever the state, and
    the system domain and the 50 MHz domain are then in reset during
    the cycle that follows, whatever its inputs. *)
Theorem cpu_reset_restarts_power_on_sequence
    (st : crg_state) (i i' : crg_inputs) :
  cpu_reset i = false ->
  por (crg_tick st i) = Z.shiftl 1 11 - 1 /\
  cd_por_rst st i = true /\
  cd_sys_rst (crg_tick st i) i' = true /\
  cd_base50_rst (crg_tick st i) i' = true.
Proof.
  intros Hpress.
  assert (Hrst : cd_por_rst st i = true).
  { unfold cd_por_rst, por_reset_request. rewrite Hpress. reflexivity. }
  assert (Hpor : por (crg_tick st i) = Z.shiftl 1 11 - 1).
  { cbn [crg_tick por]. rewrite Hrst. reflexivity. }
  assert (Hsys : cd_sys_rst (crg_tick st i) i' = true).
  { apply cd_sys_rst_request. rewrite Hpor.
    unfold sys_reset_request. apply orb_true_r. }
  split; [exact Hpor|]. split; [exact Hrst|]. split; [exact Hsys|].
  unfold cd_base50_rst, base50_reset_request. rewrite Hsys. reflexivity.
Qed.

Lemma cpu_reset_restarts_power_on_sequence_witness :
  let st := crg_run (repeat (mkInputs true true true) 3000) crg_init in
  let pressed := mkInputs false true true in
  por st = 0 /\
  por (crg_tick st pressed) = 2047 /\
  cd_sys_rst (crg_tick st pressed) (mkInputs true true true) = true.
Proof.
  intros st pressed.
  split; [vm_compute; reflexivity|].
  destruct (cpu_reset_restarts_power_on_sequence
              st pressed (mkInputs true true true) eq_refl)
    as (H1 & _ & H2 & _).
  split; [exact H1 | exact H2].
Defined.

(** X8. The 50 MHz domain is in reset whenever the system domain is, or
    its own DCM is not locked: after any sequence of inputs, where its
    reset is released, the system reset is released, the DCM and the
    PLL are locked and the counter is zero. *)
Theorem base50_reset_follows_sys_reset
    (tr : list crg_inputs) (i : crg_inputs) :
  let st := crg_run tr crg_init in
  (cd_sys_rst st i = true \/ dcm_base50_locked i = false ->
   cd_base50_rst st i = true) /\
  (cd_base50_rst st i = false ->
   cd_sys_rst st i = false /\ dcm_base50_locked i = true /\
   pll_lckd i = true /\ por st = 0).
Proof.
  intros st.
  assert (Hr : por_in_range st) by apply crg_run_in_range, crg_init_in_range.
  assert (Hheld : cd_sys_rst st i = true \/ dcm_base50_locked i = false ->
                  cd_base50_rst st i = true).
  { intros [H|H]; unfold cd_base50_rst, base50_reset_request; rewrite H.
    - reflexivity.
    - cbn [negb]. rewrite orb_true_r. reflexivity. }
  split; [exact Hheld|].
  intros Hrel.
  destruct (cd_sys_rst st i) eqn:Es;
    [rewrite Hheld in Hrel by (left; reflexivity); discriminate|].
  destruct (dcm_base50_locked i) eqn:Ed;
    [|rewrite Hheld in Hrel by (right; reflexivity); discriminate].
  split; [reflexivity|]. split; [reflexivity|].
  unfold cd_sys_rst, resetsync_rst in Es.
  apply orb_false_iff in Es as [Es _].
  apply sys_reset_request_false in Es; [|apply Hr].
  destruct Es as [E0 El]. split; assumption.
Qed.

Lemma base50_reset_follows_sys_reset_witness :
  let tr := repeat (mkInputs true true true) 5 in
  let i := mkInputs true true true in
  cd_sys_rst (crg_run tr crg_init) i = true /\
  cd_base50_rst (crg_run tr crg_init) i = true.
Proof.
  intros tr i.
  assert (H : cd_sys_rst (crg_run tr crg_init) i = true)
    by (vm_compute; reflexivity).
  split; [exact H|].
  exact (proj1 (base50_reset_follows_sys_reset tr i) (or_introl H)).
Defined.

(** The state of the counter and of the two synchronizers after [n]
    cycles with the button released and the PLL locked since power-on. *)
Lemma stable_run_state (tr : list crg_inputs) :
  Forall released_and_locked tr ->
  let n := Z.of_nat (length tr) in
  let st := crg_run tr crg_init in
  por st = Z.min 2047 (Z.max 0 (2049 - n)) /\
  sync_por st = {| rst_meta := n <? 1; rst_ff := n <? 2 |} /\
  sync_sys st = {| rst_meta := n <? 2050; rst_ff := n <? 2051 |}.
Proof.
  induction tr as [|i tr IH] using rev_ind; intros Hall.
  - cbv zeta. cbn [length crg_run fold_left]. repeat split.
  - apply Forall_app in Hall as [Hall Hi].
    apply Forall_cons_1 in Hi as [[Hc Hl] _].
    specialize (IH Hall). cbv zeta in IH. destruct IH as (Hp & Hsp & Hss).
    cbv zeta. rewrite crg_run_snoc, length_app. cbn [length].
    set (st := crg_run tr crg_init) in *.
    set (n := Z.of_nat (length tr)) in *.
    replace (Z.of_nat (length tr + 1)) with (n + 1) by (subst n; lia).
    assert (Hn : 0 <= n) by (subst n; lia).
    cbn [crg_tick por sync_por sync_sys].
    unfold cd_por_rst, por_reset_request, sys_reset_request.
    rewrite Hc, Hl, Hsp, Hss, Hp. cbn [negb orb resetsync_rst rst_ff].
    unfold por_tick, resetsync_tick. cbn [rst_meta rst_ff].
    split; [|split].
    + destruct (Z.ltb_spec n 2) as [H2|H2]; [rewrite por_reset_eq; lia|].
      destruct (Z.le_gt_cases 2049 n) as [H9|H9].
      * replace (Z.min 2047 (Z.max 0 (2049 - n))) with 0 by lia.
        rewrite por_next_zero. lia.
      * rewrite por_next_pos by (rewrite por_max_eq; lia). lia.
    + f_equal.
      * symmetry. apply Z.ltb_ge. lia.
      * destruct (Z.ltb_spec n 1), (Z.ltb_spec (n + 1) 2); first [reflexivity|lia].
    + destruct (Z.gtb_spec (Z.min 2047 (Z.max 0 (2049 - n))) 0) as [Hg|Hg].
      * f_equal; symmetry; apply Z.ltb_lt; lia.
      * f_equal.
        -- symmetry. apply Z.ltb_ge. lia.
        -- destruct (Z.ltb_spec n 2050), (Z.ltb_spec (n + 1) 2051);
             first [reflexivity|lia].
Qed.

(** X9. With the button released and the PLL locked since power-on, the
    system domain is in reset during the first 2051 cycles (two for the
    synchronizer of the [por] domain, 2047 for the counter, two for its
    own synchronizer) and out of reset in every cycle after them. *)
Theorem sys_reset_lasts_2051_cycles
    (tr : list crg_inputs) (i : crg_inputs) :
  Forall released_and_locked tr ->
  released_and_locked i ->
  cd_sys_rst (crg_run tr crg_init) i = (Z.of_nat (length tr) <? 2051).
Proof.
  intros Hall [_ Hl].
  destruct (stable_run_state tr Hall) as (Hp & _ & Hss).
  unfold cd_sys_rst, sys_reset_request, resetsync_rst.
  rewrite Hl, Hp, Hss. cbn [negb orb rst_ff].
  set (n := Z.of_nat (length tr)).
  assert (Hn : 0 <= n) by (subst n; lia).
  destruct (Z.gtb_spec (Z.min 2047 (Z.max 0 (2049 - n))) 0) as [Hg|Hg];
    [|reflexivity].
  symmetry. apply Z.ltb_lt. lia.
Qed.

Lemma sys_reset_lasts_2051_cycles_witness :
  let i := mkInputs true true false in
  cd_sys_rst (crg_run (repeat i 2051) crg_init) i = false.
Proof.
  intros i.
  assert (Hi : released_and_locked i) by (split; reflexivity).
  assert (Hall : Forall released_and_locked (repeat i 2051)).
  { apply Forall_forall. intros x Hx%list_elem_of_In.
    apply repeat_spec in Hx. subst x. exact Hi. }
  rewrite (sys_reset_lasts_2051_cycles (repeat i 2051) i Hall Hi).
  rewrite repeat_length. reflexivity.
Defined.

(** X10. A cycle in which the PLL is not locked puts the system domain
    in reset in that cycle and keeps it there during the two cycles
    that follow, whatever their inputs. *)
Theorem lock_loss_holds_sys_reset_two_cycles
    (st : crg_state) (i1 i2 i3 : crg_inputs) :
  pll_lckd i1 = false ->
  cd_sys_rst st i1 = true /\
  cd_sys_rst (crg_tick st i1) i2 = true /\
  cd_sys_rst (crg_tick (crg_tick st i1) i2) i3 = true.
Proof.
  intros Hl.
  assert (Hreq : sys_reset_request (pll_lckd i1) (por st) = true)
    by (rewrite Hl; reflexivity).
  split; [apply cd_sys_rst_request, Hreq|].
  unfold cd_sys_rst. cbn [crg_tick sync_sys por]. rewrite Hreq.
  cbn [resetsync_tick resetsync_rst rst_ff rst_meta].
  split; [apply orb_true_r|].
  destruct (sys_reset_request (pll_lckd i2) _);
    cbn [resetsync_tick rst_ff rst_meta]; apply orb_true_r.
Qed.

Lemma lock_loss_holds_sys_reset_two_cycles_witness :
  let st := crg_run (repeat (mkInputs true true true) 3000) crg_init in
  let ok := mkInputs true true true in
  let unlocked := mkInputs true false true in
  cd_sys_rst st ok = false /\
  cd_sys_rst st unlocked = true /\
  cd_sys_rst (crg_tick st unlocked) ok = true /\
  cd_sys_rst (crg_tick (crg_tick st unlocked) ok) ok = true /\
  cd_sys_rst (crg_tick (crg_tick (crg_tick st unlocked) ok) ok) ok = false.
Proof.
  intros st ok unlocked.
  split; [vm_compute; reflexivity|].
  destruct (lock_loss_holds_sys_reset_two_cycles st unlocked ok ok eq_refl)
    as (H1 & H2 & H3).
  split; [exact H1|]. split; [exact H2|]. split; [exact H3|].
  vm_compute. reflexivity.
Defined.

(** ** The netlist of a constructed SoC *)

Lemma crg_netlist_single_driver (s : signal) :
  (driver_count crg_netlist s <= 1)%nat /\
  (driver_count (crg_netlist ++ ddrphy_netlist) s <= 1)%nat.
Proof.
  destruct s as [| | | | | | | | | | | | | | | | |tap| | | | | | |];
    try (vm_compute; split; lia).
  do 6 (destruct tap as [|tap]; [vm_compute; split; lia|]).
  vm_compute. split; lia.
Qed.

(** X11. In every constructed SoC no signal has two drivers: each is
    the output of at most one primitive or the target of at most one
    combinatorial assignment, not both.  The clocks of the six clock
    domains have exactly one driver each. *)
Theorem soc_netlist_single_driver
    (v : variant) (SDRAMSoC : soc_class) (kw : kwargs) :
  exists acts,
    construct v SDRAMSoC kw = Some acts /\
    (forall s, (driver_count (soc_netlist acts) s <= 1)%nat) /\
    Forall (fun s => driver_count (soc_netlist acts) s = 1%nat)
      [ cd_sys_clk; cd_sdram_half_clk; cd_sdram_full_wr_clk;
        cd_sdram_full_rd_clk; cd_base50_clk; cd_por_clk ].
Proof.
  destruct (construct_Some SDRAMSoC kw v) as (fw & eth & _ & _ & Hacts).
  eexists. split; [exact Hacts|].
  rewrite (construct_netlist SDRAMSoC kw v _ Hacts).
  destruct (negb (truthy (integrated_main_ram_size kw))).
  - split; [intros s; apply crg_netlist_single_driver|].
    repeat (apply Forall_cons; split; [vm_compute; reflexivity|]).
    apply Forall_nil. exact I.
  - rewrite app_nil_r.
    split; [intros s; apply crg_netlist_single_driver|].
    repeat (apply Forall_cons; split; [vm_compute; reflexivity|]).
    apply Forall_nil. exact I.
Qed.

(** X12. In every constructed SoC the clock of the [por] domain is a
    combinatorial copy of the system clock, which the [BUFG] behind
    tap 5 of the PLL drives: the power-on counter runs on the system
    clock. *)
Theorem por_domain_runs_on_sys_clk
    (v : variant) (SDRAMSoC : soc_class) (kw : kwargs)
    (env : signal -> bool) :
  exists acts,
    construct v SDRAMSoC kw = Some acts /\
    let nl := soc_netlist acts in
    comb_drivers nl cd_por_clk = [cd_sys_clk] /\
    inst_drivers nl cd_por_clk = [] /\
    comb_drivers nl cd_sys_clk = [] /\
    inst_drivers nl cd_sys_clk = ["BUFG"] /\
    In (Inst "BUFG" [pll 5] [cd_sys_clk]) nl /\
    level nl env cd_por_clk = level nl env cd_sys_clk.
Proof.
  destruct (construct_Some SDRAMSoC kw v) as (fw & eth & _ & _ & Hacts).
  eexists. split; [exact Hacts|].
  rewrite (construct_netlist SDRAMSoC kw v _ Hacts).
  destruct (negb (truthy (integrated_main_ram_size kw)));
    cbv zeta; unfold level;
    (repeat (split; [vm_compute; reflexivity|]));
    (split; [cbn; tauto|]); vm_compute; reflexivity.
Qed.

(** X13. Where the DDR PHY is installed ([integrated_main_ram_size]
    zero), its write and its read strobe are both copies of
    [clk4x_wr_strb], the strobe output of the [BUFPLL] of the CRG, and
    so have the same level; where it is not, nothing drives them. *)
Theorem ddrphy_strobes_share_bufpll_strobe
    (v : variant) (SDRAMSoC : soc_class) (kw : kwargs)
    (env : signal -> bool) :
  exists acts,
    construct v SDRAMSoC kw = Some acts /\
    let nl := soc_netlist acts in
    (integrated_main_ram_size kw = 0 ->
     origin (length nl) nl ddrphy_clk4x_wr_strb = clk4x_wr_strb /\
     origin (length nl) nl ddrphy_clk4x_rd_strb = clk4x_wr_strb /\
     inst_drivers nl clk4x_wr_strb = ["BUFPLL"] /\
     level nl env ddrphy_clk4x_rd_strb = level nl env ddrphy_clk4x_wr_strb) /\
    (integrated_main_ram_size kw <> 0 ->
     driver_count nl ddrphy_clk4x_wr_strb = 0%nat /\
     driver_count nl ddrphy_clk4x_rd_strb = 0%nat).
Proof.
  destruct (construct_Some SDRAMSoC kw v) as (fw & eth & _ & _ & Hacts).
  eexists. split; [exact Hacts|].
  rewrite (construct_netlist SDRAMSoC kw v _ Hacts).
  cbv zeta. unfold truthy. rewrite negb_involutive.
  destruct (Z.eqb_spec (integrated_main_ram_size kw) 0) as [E|E].
  - split; [intros _|intros H; contradiction].
    unfold level. vm_compute. repeat split.
  - split; [intros H; contradiction|intros _].
    vm_compute. split; reflexivity.
Qed.

Lemma ddrphy_strobes_share_bufpll_strobe_witness :
  exists acts,
    construct VBaseSoC sample_SDRAMSoC default_kwargs = Some acts /\
    origin (length (soc_netlist acts)) (soc_netlist acts) ddrphy_clk4x_rd_strb
    = clk4x_wr_strb.
Proof.
  destruct (ddrphy_strobes_share_bufpll_strobe
              VBaseSoC sample_SDRAMSoC default_kwargs (fun _ => false))
    as (acts & Hacts & Hon & _).
  exists acts. split; [exact Hacts|].
  exact (proj1 (proj2 (Hon eq_refl))).
Defined.

(** ** The tables along the class chain *)

(** X14. Every entry of a table of [SDRAMSoC] is in the table of
    [BaseSoC] and in that of [MiniSoC] with the same value: the two
    class bodies add names, they never change or remove an inherited
    one. *)
Theorem parent_entries_pass_through
    (SDRAMSoC : soc_class) (v : variant) (name : string) (x : Z) :
  (csr_map SDRAMSoC !! name = Some x ->
   csr_map (class_of v SDRAMSoC) !! name = Some x) /\
  (interrupt_map SDRAMSoC !! name = Some x ->
   interrupt_map (class_of v SDRAMSoC) !! name = Some x) /\
  (mem_map SDRAMSoC !! name = Some x ->
   mem_map (class_of v SDRAMSoC) !! name = Some x).
Proof.
  destruct v; cbn [class_of]; repeat split; intros H;
    repeat (apply dict_update_other); exact H.
Qed.

Lemma parent_entries_pass_through_witness :
  csr_map sample_SDRAMSoC !! "uart" = Some 2 /\
  csr_map (MiniSoC sample_SDRAMSoC) !! "uart" = Some 2.
Proof.
  assert (H : csr_map sample_SDRAMSoC !! "uart" = Some 2)
    by (vm_compute; reflexivity).
  split; [exact H|].
  exact (proj1 (parent_entries_pass_through sample_SDRAMSoC VMiniSoC "uart" 2) H).
Defined.

(** X15. The names of the merged tables are those of the parent and
    those of the displays, no other: [BaseSoC] adds "ddrphy" to the
    register banks and "firmware_ram" to the memory map; [MiniSoC] adds
    "ethphy" and "ethmac" to the register banks and "ethmac" to the
    interrupts and to the memory map. *)
Theorem merged_table_names (SDRAMSoC : soc_class) :
  dom (csr_map (BaseSoC SDRAMSoC)) = dom (csr_map SDRAMSoC) ∪ {[ "ddrphy" ]} /\
  dom (interrupt_map (BaseSoC SDRAMSoC)) = dom (interrupt_map SDRAMSoC) /\
  dom (mem_map (BaseSoC SDRAMSoC))
  = dom (mem_map SDRAMSoC) ∪ {[ "firmware_ram" ]} /\
  dom (csr_map (MiniSoC SDRAMSoC))
  = dom (csr_map SDRAMSoC) ∪ {[ "ddrphy"; "ethphy"; "ethmac" ]} /\
  dom (interrupt_map (MiniSoC SDRAMSoC))
  = dom (interrupt_map SDRAMSoC) ∪ {[ "ethmac" ]} /\
  dom (mem_map (MiniSoC SDRAMSoC))
  = dom (mem_map SDRAMSoC) ∪ {[ "firmware_ram"; "ethmac" ]}.
Proof.
  unfold MiniSoC, BaseSoC, dict_update. cbn [csr_map interrupt_map mem_map].
  unfold BaseSoC_csr_map_0, BaseSoC_mem_map_0, MiniSoC_csr_map_0,
    MiniSoC_interrupt_map_0, MiniSoC_mem_map_0.
  rewrite !dom_union_L, ?dom_insert_L, !dom_singleton_L.
  repeat split; rewrite <- ?(assoc_L (∪)); reflexivity.
Qed.

(** X16. The two updates of the chain amount to one: the table of
    [MiniSoC] is the display of [MiniSoC], updated with the display of
    [BaseSoC], updated with the table of [SDRAMSoC].  Among layers that
    share a name the oldest one has the last word. *)
Theorem class_chain_flattens (SDRAMSoC : soc_class) (name : string) :
  csr_map (MiniSoC SDRAMSoC)
  = dict_update (dict_update MiniSoC_csr_map_0 BaseSoC_csr_map_0)
      (csr_map SDRAMSoC) /\
  mem_map (MiniSoC SDRAMSoC)
  = dict_update (dict_update MiniSoC_mem_map_0 BaseSoC_mem_map_0)
      (mem_map SDRAMSoC) /\
  csr_map (MiniSoC SDRAMSoC) !! name =
    match csr_map SDRAMSoC !! name with
    | Some x => Some x
    | None =>
        match BaseSoC_csr_map_0 !! name with
        | Some x => Some x
        | None => MiniSoC_csr_map_0 !! name
        end
    end.
Proof.
  unfold MiniSoC, BaseSoC. cbn [csr_map mem_map].
  split; [unfold dict_update; symmetry; apply (assoc_L (∪))|].
  split; [unfold dict_update; symmetry; apply (assoc_L (∪))|].
  rewrite !lookup_dict_update.
  destruct (csr_map SDRAMSoC !! name); reflexivity.
Qed.

(** X17. Over a parent that has none of the four names, the tables of
    [MiniSoC] give the DDR PHY register bank 16, the Ethernet PHY bank
    17, the Ethernet MAC bank 18 and interrupt line 2, and base the
    firmware RAM at [0x20000000] and the MAC at [0x30000000]. *)
Theorem MiniSoC_assignments (SDRAMSoC : soc_class) :
  csr_map SDRAMSoC !! "ddrphy" = None ->
  csr_map SDRAMSoC !! "ethphy" = None ->
  csr_map SDRAMSoC !! "ethmac" = None ->
  interrupt_map SDRAMSoC !! "ethmac" = None ->
  mem_map SDRAMSoC !! "firmware_ram" = None ->
  mem_map SDRAMSoC !! "ethmac" = None ->
  csr_map (MiniSoC SDRAMSoC) !! "ddrphy" = Some 16 /\
  csr_map (MiniSoC SDRAMSoC) !! "ethphy" = Some 17 /\
  csr_map (MiniSoC SDRAMSoC) !! "ethmac" = Some 18 /\
  interrupt_map (MiniSoC SDRAMSoC) !! "ethmac" = Some 2 /\
  mem_map (MiniSoC SDRAMSoC) !! "firmware_ram" = Some 0x20000000 /\
  mem_map (MiniSoC SDRAMSoC) !! "ethmac" = Some 0x30000000.
Proof.
  intros H1 H2 H3 H4 H5 H6.
  rewrite !MiniSoC_csr_map_lookup, !BaseSoC_csr_map_lookup,
    MiniSoC_interrupt_map_lookup, !MiniSoC_mem_map_lookup,
    !BaseSoC_mem_map_lookup.
  cbn [BaseSoC interrupt_map].
  rewrite H1, H2, H3, H4, H5, H6. repeat split.
Qed.

Lemma MiniSoC_assignments_witness :
  csr_map (MiniSoC sample_SDRAMSoC) !! "ddrphy" = Some 16 /\
  csr_map (MiniSoC sample_SDRAMSoC) !! "ethphy" = Some 17 /\
  csr_map (MiniSoC sample_SDRAMSoC) !! "ethmac" = Some 18 /\
  interrupt_map (MiniSoC sample_SDRAMSoC) !! "ethmac" = Some 2 /\
  mem_map (MiniSoC sample_SDRAMSoC) !! "firmware_ram" = Some 0x20000000 /\
  mem_map (MiniSoC sample_SDRAMSoC) !! "ethmac" = Some 0x30000000.
Proof.
  apply (MiniSoC_assignments sample_SDRAMSoC); vm_compute; reflexivity.
Defined.

(** ** The constructors *)

(** X18. [MiniSoC.__init__] does all that [BaseSoC.__init__] does on
    the same arguments, in the same order and with the same address for
    the firmware RAM, and then its four Ethernet steps. *)
Theorem MiniSoC_extends_BaseSoC (SDRAMSoC : soc_class) (kw : kwargs) :
  exists base eth,
    construct VBaseSoC SDRAMSoC kw = Some base /\
    mem_map (MiniSoC SDRAMSoC) !! "ethmac" = Some eth /\
    construct VMiniSoC SDRAMSoC kw =
      Some (base
            ++ [ Submodule "ethphy";
                 Submodule "ethmac";
                 AddWbSlave eth "ethmac";
                 AddMemoryRegion "ethmac" (eth + shadow_base SDRAMSoC) 0x2000 ]).
Proof.
  destruct (construct_Some SDRAMSoC kw VBaseSoC) as (fw & _ & Hfw & _ & HB).
  destruct (construct_Some SDRAMSoC kw VMiniSoC) as (fw' & eth & Hfw' & He & HM).
  cbn [class_of] in Hfw, Hfw'.
  rewrite MiniSoC_mem_map_lookup, Hfw in Hfw'. injection Hfw' as <-.
  eexists. exists eth. split; [exact HB|]. split; [exact He|].
  rewrite HM, app_nil_r. reflexivity.
Qed.

(** X19. The submodules of a construction, in the order they are
    installed: the CRG and the firmware RAM, the DDR PHY when there is
    no integrated main RAM, and for [MiniSoC] the Ethernet PHY and MAC.
    No name is installed twice. *)
Theorem submodules_installed
    (v : variant) (SDRAMSoC : soc_class) (kw : kwargs) :
  exists acts,
    construct v SDRAMSoC kw = Some acts /\
    submodules acts =
      [ "crg"; "firmware_ram" ]
      ++ (if integrated_main_ram_size kw =? 0 then [ "ddrphy" ] else [])
      ++ match v with
         | VBaseSoC => []
         | VMiniSoC => [ "ethphy"; "ethmac" ]
         end /\
    NoDup (submodules acts).
Proof.
  destruct (construct_Some SDRAMSoC kw v) as (fw & eth & _ & _ & Hacts).
  eexists. split; [exact Hacts|].
  unfold truthy. rewrite negb_involutive.
  destruct (integrated_main_ram_size kw =? 0), v;
    (split; [reflexivity|]);
    cbn; repeat (apply NoDup_cons; split; [not_in_list|]); apply NoDup_nil_2.
Qed.

(** X20. The Ethernet PHY and MAC are submodules, and the MAC has a
    bus window and a memory region, exactly in [MiniSoC], with or
    without integrated main RAM. *)
Theorem ethernet_installed_iff_MiniSoC
    (v : variant) (SDRAMSoC : soc_class) (kw : kwargs) :
  exists acts,
    construct v SDRAMSoC kw = Some acts /\
    (Submodule "ethphy" ∈ acts <-> v = VMiniSoC) /\
    (Submodule "ethmac" ∈ acts <-> v = VMiniSoC) /\
    ((exists a, AddWbSlave a "ethmac" ∈ acts) <-> v = VMiniSoC) /\
    ((exists o l, AddMemoryRegion "ethmac" o l ∈ acts) <-> v = VMiniSoC).
Proof.
  destruct (construct_Some SDRAMSoC kw v) as (fw & eth & _ & _ & Hacts).
  eexists. split; [exact Hacts|].
  destruct (negb (truthy (integrated_main_ram_size kw))), v;
    cbn [app fmap list_fmap ddrphy_netlist];
    repeat split;
    first [ discriminate
          | reflexivity
          | solve [intros _; in_list]
          | solve [intros _; eexists; in_list]
          | solve [intros _; do 2 eexists; in_list]
          | solve [not_in_list]
          | solve [intros [a Ha]; revert Ha; not_in_list]
          | solve [intros (o & l & Hol); revert Hol; not_in_list] ].
Qed.

(** X21. A constructor fails with [KeyError] exactly when the
    [mem_map] of the class of the object lacks a key it reads:
    "firmware_ram" for [BaseSoC.__init__], "firmware_ram" or "ethmac"
    for [MiniSoC.__init__].  On the classes [BaseSoC] and [MiniSoC]
    themselves neither fails. *)
Theorem constructor_KeyError (cls SDRAMSoC : soc_class) (kw : kwargs) :
  (BaseSoC_init cls kw = None <-> mem_map cls !! "firmware_ram" = None) /\
  (MiniSoC_init cls kw = None <->
   mem_map cls !! "firmware_ram" = None \/ mem_map cls !! "ethmac" = None) /\
  is_Some (BaseSoC_init (BaseSoC SDRAMSoC) kw) /\
  is_Some (BaseSoC_init (MiniSoC SDRAMSoC) kw) /\
  is_Some (MiniSoC_init (MiniSoC SDRAMSoC) kw).
Proof.
  split; [|split; [|split; [|split]]].
  - unfold BaseSoC_init.
    destruct (mem_map cls !! "firmware_ram"); cbn; split;
      first [discriminate | reflexivity].
  - unfold MiniSoC_init, BaseSoC_init.
    destruct (mem_map cls !! "firmware_ram"), (mem_map cls !! "ethmac");
      cbn; split; first [discriminate | tauto | intros [?|?]; discriminate].
  - destruct (construct_Some SDRAMSoC kw VBaseSoC) as (? & ? & _ & _ & H).
    cbn [construct] in H. rewrite H. eauto.
  - destruct (firmware_ram_key SDRAMSoC VMiniSoC) as [fw Hfw].
    cbn [class_of] in Hfw. rewrite (BaseSoC_init_Some kw _ fw Hfw). eauto.
  - destruct (construct_Some SDRAMSoC kw VMiniSoC) as (? & ? & _ & _ & H).
    cbn [construct] in H. rewrite H. eauto.
Qed.

(** The Ethernet steps on an object whose class has no "ethmac" in its
    [mem_map] end in [KeyError]. *)
Example MiniSoC_init_on_BaseSoC_tables :
  MiniSoC_init (BaseSoC sample_SDRAMSoC) default_kwargs = None.
Proof. vm_compute. reflexivity. Qed.

(** ** The plan at its own output, and below one step *)

(** X22. For a target from 0 up to 2^53, asking for the frequency that
    the plan produces gives the same PLL parameters again, and this time
    the plan is exact: the produced frequencies are the fixed points of
    the constructor. *)
Theorem crg_pll_fixed_point (clk_freq : Z) :
  0 <= clk_freq < 2 ^ 53 ->
  exists pll,
    _CRG_pll clk_freq = Ok pll /\
    _CRG_pll (sys_clk_hz f0 pll) = Ok pll /\
    sys_clk_exact f0 pll (sys_clk_hz f0 pll).
Proof.
  intros H53. eexists. split; [apply crg_pll_mult, H53|].
  rewrite crg_sys_clk_hz.
  pose proof (Z.mul_div_le clk_freq 12500000 ltac:(lia)) as Hle.
  assert (Hge : 0 <= 12500000 * (clk_freq / 12500000)).
  { apply Z.mul_nonneg_nonneg; [lia|apply Z.div_pos; lia]. }
  assert (Hq : 12500000 * (clk_freq / 12500000) / 12500000
               = clk_freq / 12500000).
  { rewrite Z.mul_comm. apply Z.div_mul. lia. }
  split.
  - rewrite crg_pll_mult, Hq by lia. reflexivity.
  - unfold sys_clk_exact. rewrite crg_sys_clk_hz.
    split; [|reflexivity].
    unfold sys_clk_num, sys_clk_den.
    cbn [CLKFBOUT_MULT DIVCLK_DIVIDE CLKOUT5_DIVIDE].
    rewrite f0_eq.
    replace (12500000 * 8 * (clk_freq / 12500000))
      with (12500000 * (clk_freq / 12500000) * (1 * 8)) by lia.
    apply Z.mod_mul. lia.
Qed.

Lemma crg_pll_fixed_point_witness :
  exists pll,
    _CRG_pll 30000000 = Ok pll /\
    sys_clk_hz f0 pll = 25000000 /\
    _CRG_pll 25000000 = Ok pll /\
    sys_clk_exact f0 pll 25000000.
Proof.
  destruct (crg_pll_fixed_point 30000000 ltac:(lia)) as (pll & Hpll & Hfix & Hex).
  exists pll.
  assert (Hs : sys_clk_hz f0 pll = 25000000).
  { rewrite crg_pll_mult in Hpll by lia. injection Hpll as <-. reflexivity. }
  rewrite Hs in Hfix, Hex. repeat split; try assumption; apply Hex.
Defined.

(** X23. A target from 0 up to, and not including, 12.5 MHz is
    accepted and gets the multiplier 0: the PLL is asked for a system
    clock of 0 Hz, and nothing is raised. *)
Theorem crg_pll_below_one_step (clk_freq : Z) :
  0 <= clk_freq < 12500000 ->
  exists pll,
    _CRG_pll clk_freq = Ok pll /\
    CLKFBOUT_MULT pll = 0 /\
    sys_clk_hz f0 pll = 0.
Proof.
  intros H. eexists. split; [apply crg_pll_mult; lia|].
  rewrite crg_sys_clk_hz. cbn [CLKFBOUT_MULT].
  rewrite Z.div_small by lia. split; reflexivity.
Qed.

Lemma crg_pll_below_one_step_witness :
  exists pll,
    _CRG_pll 10000000 = Ok pll /\
    CLKFBOUT_MULT pll = 0 /\
    sys_clk_hz f0 pll = 0.
Proof. apply (crg_pll_below_one_step 10000000). lia. Defined.
